(** * jsonl-tweet-hashtags: a shallow embedding and its properties

    The program [jsonl-tweet-hashtags.py] reads JSONL files of tweets, counts
    the hashtags of the tweets inside an optional date range and prints the
    most frequent ones.  This file embeds [parse_twitter_date] and the body
    of [main] (Python 3 semantics) and proves the properties of the scan and
    of the report.

    Conventions of the embedding:
    - a Python [str] is a [string]; its characters are the code points
      below 256, and [str.isspace], [str.lower] are given on that range;
    - a Python [int] is a [Z];
    - a Python [dict] is an association list in insertion order (what
      [dict.items()] and [sorted] observe);
    - an exception is a value of [exn]; code that may raise returns a
      [result]; the body of the [try] block runs in the monad [M], which
      threads the scan state and keeps the mutations made before a raise,
      as Python does. *)

From Stdlib Require Import List String Ascii ZArith NArith Bool Lia.
From Stdlib Require Import Permutation Sorted.
Import ListNotations.

Set Warnings "-register-all".
Open Scope string_scope.
Open Scope Z_scope.

(** ** Exceptions and results *)

Inductive exn : Type :=
| ValueError
| KeyError (key : string)
| TypeError
| AttributeError
| SystemExit (code : Z).

Inductive result (A : Type) : Type :=
| Ok (a : A)
| Raise (e : exn).

Arguments Ok {A} a.
Arguments Raise {A} e.

Definition rbind {A B : Type} (r : result A) (k : A -> result B) : result B :=
  match r with
  | Ok a => k a
  | Raise e => Raise e
  end.

Declare Scope result_scope.
Delimit Scope result_scope with result.
Notation "'let?' x ':=' r 'in' k" := (rbind r (fun x => k))
  (at level 10, x pattern, r at level 100, k at level 200) : result_scope.

(** ** Python strings *)

Module PyStr.

(** [str.isspace] on one character (code points below 256): TAB..CR,
    FS..US, SPACE, NEL and NBSP. *)
Definition isspace (c : ascii) : bool :=
  let n := N_of_ascii c in
  (((9 <=? n) && (n <=? 13)) || ((28 <=? n) && (n <=? 32))
   || (n =? 133) || (n =? 160))%N.

(** [str.lower] on one character: A..Z and the Latin-1 capitals
    U+00C0..U+00DE, U+00D7 (the multiplication sign) excepted. *)
Definition lower_char (c : ascii) : ascii :=
  let n := N_of_ascii c in
  if (((65 <=? n) && (n <=? 90))
      || ((192 <=? n) && (n <=? 222) && negb (n =? 215)))%N
  then ascii_of_N (n + 32) else c.

Fixpoint lower (s : string) : string :=
  match s with
  | EmptyString => EmptyString
  | String c s' => String (lower_char c) (lower s')
  end.

Fixpoint lstrip (s : string) : string :=
  match s with
  | EmptyString => EmptyString
  | String c s' => if isspace c then lstrip s' else s
  end.

Fixpoint rstrip (s : string) : string :=
  match s with
  | EmptyString => EmptyString
  | String c s' =>
      match rstrip s' with
      | EmptyString => if isspace c then EmptyString else String c EmptyString
      | r => String c r
      end
  end.

(** [s.strip()] *)
Definition strip (s : string) : string := rstrip (lstrip s).

(** [len(s)] *)
Definition len (s : string) : Z := Z.of_nat (String.length s).

(** [s.split(" ")]: split at every single space, empty pieces kept; the
    result is never empty. *)
Fixpoint split (s : string) : list string :=
  match s with
  | EmptyString => [EmptyString]
  | String c s' =>
      if Ascii.eqb c " "%char then EmptyString :: split s'
      else match split s' with
           | p :: ps => String c p :: ps
           | [] => [String c EmptyString]
           end
  end.

(** [" ".join(parts)] *)
Definition join (parts : list string) : string := String.concat " " parts.

(** [sub in s] for two strings *)
Fixpoint contains (sub s : string) : bool :=
  String.prefix sub s
  || match s with
     | EmptyString => false
     | String _ s' => contains sub s'
     end.

(** the characters of [s], each as a one-character string (what a
    [for] loop over a string yields) *)
Fixpoint chars (s : string) : list string :=
  match s with
  | EmptyString => []
  | String c s' => String c EmptyString :: chars s'
  end.

End PyStr.

(** ** JSON values, as [json.loads] returns them *)

Inductive json : Type :=
| JNull
| JBool (b : bool)
| JInt (n : Z)
| JFloat (literal : string)
| JStr (s : string)
| JList (items : list json)
| JDict (members : list (string * json)).

Module PyObj.

Fixpoint assoc {V : Type} (k : string) (kvs : list (string * V)) : option V :=
  match kvs with
  | [] => None
  | (k', v) :: rest => if String.eqb k k' then Some v else assoc k rest
  end.

(** [obj[key]] for a string key *)
Definition getitem (obj : json) (key : string) : result json :=
  match obj with
  | JDict kvs =>
      match assoc key kvs with
      | Some v => Ok v
      | None => Raise (KeyError key)
      end
  | _ => Raise TypeError
  end.

Definition is_str (k : string) (v : json) : bool :=
  match v with
  | JStr s => String.eqb k s
  | _ => false
  end.

(** [key in obj] for a string key: key membership in a dict, element
    membership in a list, substring test in a string; a [TypeError] on
    values that are not containers. *)
Definition contains (key : string) (obj : json) : result bool :=
  match obj with
  | JDict kvs =>
      Ok (match assoc key kvs with Some _ => true | None => false end)
  | JList items => Ok (existsb (is_str key) items)
  | JStr s => Ok (PyStr.contains key s)
  | _ => Raise TypeError
  end.

(** [len(obj)] *)
Definition len (obj : json) : result Z :=
  match obj with
  | JDict kvs => Ok (Z.of_nat (List.length kvs))
  | JList items => Ok (Z.of_nat (List.length items))
  | JStr s => Ok (PyStr.len s)
  | _ => Raise TypeError
  end.

(** the values a [for] loop over [obj] yields *)
Definition iter (obj : json) : result (list json) :=
  match obj with
  | JDict kvs => Ok (map (fun kv => JStr (fst kv)) kvs)
  | JList items => Ok items
  | JStr s => Ok (map JStr (PyStr.chars s))
  | _ => Raise TypeError
  end.

(** [obj.lower()] *)
Definition lower (obj : json) : result string :=
  match obj with
  | JStr s => Ok (PyStr.lower s)
  | _ => Raise AttributeError
  end.

End PyObj.

(** ** Regular expressions with backtracking

    [datetime.strptime] turns a format into a regular expression and takes
    the first match a backtracking matcher finds.  [run r s] lists every way
    [r] matches a prefix of [s], as (matched text, rest), in the order such a
    matcher tries them: the left alternative first, an optional part and a
    repetition greedily. *)

Module Re.

Inductive re : Type :=
| Eps
| Chr (p : ascii -> bool)
| Seq (r1 r2 : re)
| Alt (r1 r2 : re)
| Opt (r : re)
| Many1 (p : ascii -> bool).

Fixpoint many1 (p : ascii -> bool) (s : string) : list (string * string) :=
  match s with
  | EmptyString => []
  | String c s' =>
      if p c
      then map (fun ms => (String c (fst ms), snd ms)) (many1 p s')
           ++ [(String c EmptyString, s')]
      else []
  end.

Fixpoint run (r : re) (s : string) : list (string * string) :=
  match r with
  | Eps => [(EmptyString, s)]
  | Chr p =>
      match s with
      | String c s' => if p c then [(String c EmptyString, s')] else []
      | EmptyString => []
      end
  | Seq r1 r2 =>
      flat_map (fun m1 =>
                  map (fun m2 => (fst m1 ++ fst m2, snd m2)) (run r2 (snd m1)))
               (run r1 s)
  | Alt r1 r2 => run r1 s ++ run r2 s
  | Opt r' => run r' s ++ [(EmptyString, s)]
  | Many1 p => many1 p s
  end.

(** character classes *)
Definition lit (c : ascii) : ascii -> bool := Ascii.eqb c.
Definition nocase (c : ascii) : ascii -> bool :=
  fun x => Ascii.eqb (PyStr.lower_char c) (PyStr.lower_char x).
Definition range (lo hi : ascii) : ascii -> bool :=
  fun x => ((N_of_ascii lo <=? N_of_ascii x)
            && (N_of_ascii x <=? N_of_ascii hi))%N.
Definition digit : ascii -> bool := range "0" "9".

(** a sequence of character classes, and a choice between regexps *)
Fixpoint cls (ps : list (ascii -> bool)) : re :=
  match ps with
  | [] => Eps
  | [p] => Chr p
  | p :: ps' => Seq (Chr p) (cls ps')
  end.

Fixpoint alts (rs : list re) : re :=
  match rs with
  | [] => Chr (fun _ => false)
  | [r] => r
  | r :: rs' => Alt r (alts rs')
  end.

(** a word, letter case ignored (the regexps of [strptime] are compiled
    with [re.IGNORECASE]) *)
Fixpoint word (w : string) : re :=
  match w with
  | EmptyString => Eps
  | String c EmptyString => Chr (nocase c)
  | String c w' => Seq (Chr (nocase c)) (word w')
  end.

End Re.


(** ** Dates and times: Python's [datetime]

    [tzinfo] is [None] for a naive value and the UTC offset in microseconds
    for an aware one. *)

Record datetime : Type := mk_datetime {
  year : Z;
  month : Z;
  day : Z;
  hour : Z;
  minute : Z;
  second : Z;
  microsecond : Z;
  tzinfo : option Z
}.

Module Datetime.

Definition is_leap (y : Z) : bool :=
  (y mod 4 =? 0) && (negb (y mod 100 =? 0) || (y mod 400 =? 0)).

Definition days_in_month (y m : Z) : Z :=
  if m =? 2 then (if is_leap y then 29 else 28)
  else if (m =? 4) || (m =? 6) || (m =? 9) || (m =? 11) then 30
  else 31.

Definition days_before_year (y : Z) : Z :=
  let y' := y - 1 in y' * 365 + y' / 4 - y' / 100 + y' / 400.

Definition days_before_month (y m : Z) : Z :=
  nth (Z.to_nat m) [0; 0; 31; 59; 90; 120; 151; 181; 212; 243; 273; 304; 334] 0
  + (if (2 <? m) && is_leap y then 1 else 0).

Definition ymd2ord (y m d : Z) : Z :=
  days_before_year y + days_before_month y m + d.

Definition in_range (lo x hi : Z) : bool := (lo <=? x) && (x <=? hi).

(** the constructor [datetime(...)], with its range checks; the offset of a
    time zone lies strictly between -24 and 24 hours *)
Definition new (y m d H M S us : Z) (tz : option Z) : result datetime :=
  if in_range 1 y 9999 && in_range 1 m 12 && in_range 1 d (days_in_month y m)
     && in_range 0 H 23 && in_range 0 M 59 && in_range 0 S 59
     && in_range 0 us 999999
     && match tz with
        | None => true
        | Some off => (- 86400000000 <? off) && (off <? 86400000000)
        end
  then Ok (mk_datetime y m d H M S us tz)
  else Raise ValueError.

Definition fields (d : datetime) : list Z :=
  [year d; month d; day d; hour d; minute d; second d; microsecond d].

Fixpoint lex_compare (a b : list Z) : comparison :=
  match a, b with
  | [], [] => Eq
  | [], _ :: _ => Lt
  | _ :: _, [] => Gt
  | x :: a', y :: b' =>
      match x ?= y with
      | Eq => lex_compare a' b'
      | c => c
      end
  end.

(** microseconds since the start of day 0 of the proleptic calendar, in UTC *)
Definition utc_us (d : datetime) : Z :=
  (((ymd2ord (year d) (month d) (day d) * 24 + hour d) * 60 + minute d) * 60
   + second d) * 1000000 + microsecond d
  - match tzinfo d with Some off => off | None => 0 end.

(** comparison of two datetimes: field by field when both are naive, as
    instants when both are aware, a [TypeError] when they are mixed *)
Definition cmp (a b : datetime) : result comparison :=
  match tzinfo a, tzinfo b with
  | None, None => Ok (lex_compare (fields a) (fields b))
  | Some _, Some _ => Ok (utc_us a ?= utc_us b)
  | _, _ => Raise TypeError
  end.

(** [a < b] and [a > b] *)
Definition lt (a b : datetime) : result bool :=
  (let? c := cmp a b in Ok (match c with Lt => true | _ => false end))%result.

Definition gt (a b : datetime) : result bool :=
  (let? c := cmp a b in Ok (match c with Gt => true | _ => false end))%result.

End Datetime.

(** ** [datetime.strptime]

    The directives the program uses, with the regular expressions of
    CPython's [_strptime.TimeRE] (English day and month names). *)

Module Strptime.

Inductive directive : Type := Da | Db | Dd | DH | DM | DS | DY | Dm | Dz.

Inductive item : Type :=
| Group (d : directive)
| Space
| Literal (c : ascii).

Definition directive_of (c : ascii) : option directive :=
  match c with
  | "a"%char => Some Da
  | "b"%char => Some Db
  | "d"%char => Some Dd
  | "H"%char => Some DH
  | "M"%char => Some DM
  | "S"%char => Some DS
  | "Y"%char => Some DY
  | "m"%char => Some Dm
  | "z"%char => Some Dz
  | _ => None
  end.

(** the format as a list of items: a run of white space stands for [\s+],
    [%x] for the group of directive [x], any other character for itself *)
Fixpoint compile (fmt : string) : option (list item) :=
  match fmt with
  | EmptyString => Some []
  | String c rest =>
      if Ascii.eqb c "%"%char then
        match rest with
        | EmptyString => None
        | String d rest' =>
            match directive_of d, compile rest' with
            | Some dir, Some items => Some (Group dir :: items)
            | _, _ => None
            end
        end
      else
        match compile rest with
        | None => None
        | Some items =>
            if PyStr.isspace c then
              match items with
              | Space :: _ => Some items
              | _ => Some (Space :: items)
              end
            else Some (Literal c :: items)
        end
  end.

Definition weekdays : list string :=
  ["mon"; "tue"; "wed"; "thu"; "fri"; "sat"; "sun"].

Definition months : list string :=
  ["jan"; "feb"; "mar"; "apr"; "may"; "jun";
   "jul"; "aug"; "sep"; "oct"; "nov"; "dec"].

Fixpoint digits_upto (n : nat) : Re.re :=
  match n with
  | O => Re.Eps
  | S n' => Re.Opt (Re.Seq (Re.Chr Re.digit) (digits_upto n'))
  end.

Definition sign (c : ascii) : bool :=
  Ascii.eqb c "+"%char || Ascii.eqb c "-"%char.

Local Open Scope char_scope.

Definition regex (d : directive) : Re.re :=
  let r := Re.range in
  let l := Re.lit in
  let dg := Re.digit in
  match d with
  | Da => Re.alts (map Re.word weekdays)
  | Db => Re.alts (map Re.word months)
  | Dd => Re.alts (map Re.cls [[l "3"; r "0" "1"]; [r "1" "2"; dg];
                               [l "0"; r "1" "9"]; [r "1" "9"];
                               [l " "; r "1" "9"]])
  | DH => Re.alts (map Re.cls [[l "2"; r "0" "3"]; [r "0" "1"; dg]; [dg]])
  | DM => Re.alts (map Re.cls [[r "0" "5"; dg]; [dg]])
  | DS => Re.alts (map Re.cls [[l "6"; r "0" "1"]; [r "0" "5"; dg]; [dg]])
  | DY => Re.cls [dg; dg; dg; dg]
  | Dm => Re.alts (map Re.cls [[l "1"; r "0" "2"]; [l "0"; r "1" "9"];
                               [r "1" "9"]])
  | Dz =>
      let mmss := Re.cls [r "0" "5"; dg] in
      let colon := Re.Opt (Re.Chr (l ":")) in
      let frac := Re.Seq (Re.Chr (l ".")) (Re.Seq (Re.Chr dg) (digits_upto 5)) in
      Re.Alt
        (Re.Seq (Re.cls [sign; dg; dg])
           (Re.Seq colon
              (Re.Seq mmss
                 (Re.Opt (Re.Seq colon (Re.Seq mmss (Re.Opt frac)))))))
        (Re.Chr (l "Z"))
  end.

Local Close Scope char_scope.

Definition item_re (it : item) : Re.re :=
  match it with
  | Group d => regex d
  | Space => Re.Many1 PyStr.isspace
  | Literal c => Re.Chr (Re.nocase c)
  end.

Definition capture (it : item) (txt : string) : list (directive * string) :=
  match it with
  | Group d => [(d, txt)]
  | _ => []
  end.

(** every match of the format against a prefix of [s], in the matcher's
    order, with the text of each group *)
Fixpoint matches (items : list item) (s : string)
  : list (list (directive * string) * string) :=
  match items with
  | [] => [([], s)]
  | it :: rest =>
      flat_map (fun m =>
                  map (fun r => ((capture it (fst m) ++ fst r)%list, snd r))
                      (matches rest (snd m)))
               (Re.run (item_re it) s)
  end.

Definition digit_val (c : ascii) : option Z :=
  if Re.digit c then Some (Z.of_N (N_of_ascii c) - 48) else None.

Fixpoint digits_val (s : string) (acc : Z) : option Z :=
  match s with
  | EmptyString => Some acc
  | String c s' =>
      match digit_val c with
      | Some v => digits_val s' (acc * 10 + v)
      | None => None
      end
  end.

(** [int(s)] on the texts a group can hold: digits, white space around
    them allowed *)
Definition int_of (s : string) : result Z :=
  match PyStr.strip s with
  | EmptyString => Raise ValueError
  | t => match digits_val t 0 with
         | Some v => Ok v
         | None => Raise ValueError
         end
  end.

Fixpoint index_of (w : string) (names : list string) : option Z :=
  match names with
  | [] => None
  | n :: rest =>
      if String.eqb w n then Some 0
      else option_map Z.succ (index_of w rest)
  end.

(** [s[i:j]] and [s[i:]] *)
Definition slice (i j : nat) (s : string) : string :=
  String.substring i (j - i) s.

Definition from (i : nat) (s : string) : string :=
  String.substring i (String.length s - i) s.

Definition char_is (i : nat) (c : ascii) (s : string) : bool :=
  match String.get i s with
  | Some x => Ascii.eqb x c
  | None => false
  end.

Fixpoint zeros (n : nat) : string :=
  match n with
  | O => EmptyString
  | S n' => String "0"%char (zeros n')
  end.

(** the UTC offset, in microseconds, of the text of a [%z] group *)
Definition tz_of (z0 : string) : result Z :=
  if String.eqb z0 "Z" then Ok 0
  else
    (let? z :=
       (if char_is 3 ":"%char z0 then
          let z1 := slice 0 3 z0 ++ from 4 z0 in
          if (5 <? String.length z1)%nat then
            if char_is 5 ":"%char z1 then Ok (slice 0 5 z1 ++ from 6 z1)
            else Raise ValueError
          else Ok z1
        else Ok z0) in
     let? hours := int_of (slice 1 3 z) in
     let? minutes := int_of (slice 3 5 z) in
     let? seconds :=
       (match slice 5 7 z with
        | EmptyString => Ok 0
        | t => int_of t
        end) in
     let remainder := from 8 z in
     let? fraction :=
       int_of (remainder ++ zeros (6 - String.length remainder)) in
     let off := (hours * 3600 + minutes * 60 + seconds) * 1000000 + fraction in
     Ok (if char_is 0 "-"%char z then - off else off))%result.

(** the value of one group stored into the fields parsed so far; the day
    of the week is matched and then ignored *)
Definition set_field (f : directive * string) (acc : datetime)
  : result datetime :=
  let y := year acc in
  let mo := month acc in
  let dd := day acc in
  let hh := hour acc in
  let mi := minute acc in
  let ss := second acc in
  let us := microsecond acc in
  let tz := tzinfo acc in
  (match fst f with
   | Da => Ok acc
   | Db =>
       match index_of (PyStr.lower (snd f)) months with
       | Some i => Ok (mk_datetime y (i + 1) dd hh mi ss us tz)
       | None => Raise ValueError
       end
   | Dd => let? v := int_of (snd f) in Ok (mk_datetime y mo v hh mi ss us tz)
   | DH => let? v := int_of (snd f) in Ok (mk_datetime y mo dd v mi ss us tz)
   | DM => let? v := int_of (snd f) in Ok (mk_datetime y mo dd hh v ss us tz)
   | DS => let? v := int_of (snd f) in Ok (mk_datetime y mo dd hh mi v us tz)
   | DY => let? v := int_of (snd f) in Ok (mk_datetime v mo dd hh mi ss us tz)
   | Dm => let? v := int_of (snd f) in Ok (mk_datetime y v dd hh mi ss us tz)
   | Dz =>
       let? v := tz_of (snd f) in Ok (mk_datetime y mo dd hh mi ss us (Some v))
   end)%result.

Fixpoint convert (found : list (directive * string)) (acc : datetime)
  : result datetime :=
  match found with
  | [] => Ok acc
  | f :: rest => (let? acc' := set_field f acc in convert rest acc')%result
  end.

(** the fields before any group is read: 1900-01-01 00:00:00, naive *)
Definition defaults : datetime := mk_datetime 1900 1 1 0 0 0 0 None.

(** [datetime.strptime(data, fmt)]: the first match of the format must
    reach the end of [data]; the fields it yields must make a valid
    datetime.  Every failure is a [ValueError]. *)
Definition strptime (data fmt : string) : result datetime :=
  match compile fmt with
  | None => Raise ValueError
  | Some items =>
      match matches items data with
      | [] => Raise ValueError
      | (found, rest) :: _ =>
          match rest with
          | EmptyString =>
              (let? f := convert found defaults in
               Datetime.new (year f) (month f) (day f) (hour f) (minute f)
                            (second f) (microsecond f) (tzinfo f))%result
          | _ => Raise ValueError
          end
      end
  end.

End Strptime.

(** ** The program: [parse_twitter_date] *)

Definition twitter_format : string := "%a %b %d %H:%M:%S %Y".
Definition twitter_format_tz : string := "%a %b %d %H:%M:%S %z %Y".
Definition option_format : string := "%Y-%m-%d".

(** [parts[0:4] + [ parts[-1] ]] *)
Definition kept_parts (parts : list string) : list string :=
  (firstn 4 parts ++ [last parts EmptyString])%list.

(** The argument is any value [tweet["created_at"]] can hold: on a value
    that is not a string [s.split] raises [AttributeError] and [strptime]
    raises [TypeError]. *)
Definition parse_twitter_date (s : json) (ignore_time_zones : bool)
  : result datetime :=
  if ignore_time_zones then
    match s with
    | JStr str =>
        let parts := PyStr.split str in
        let smodified := PyStr.join (kept_parts parts) in
        Strptime.strptime smodified twitter_format
    | _ => Raise AttributeError
    end
  else
    match s with
    | JStr str => Strptime.strptime str twitter_format_tz
    | _ => Raise TypeError
    end.

(** ** The program: the state of the scan of one file *)

(** [counts], a [defaultdict(int)]: the keys in the order of their first
    increment *)
Definition counts_t : Type := list (string * Z).

(** [counts[k] += 1] *)
Fixpoint incr (k : string) (c : counts_t) : counts_t :=
  match c with
  | [] => [(k, 0 + 1)]
  | (k', v) :: rest =>
      if String.eqb k k' then (k', v + 1) :: rest else (k', v) :: incr k rest
  end.

(** [counts[k]] read without inserting: 0 for an absent key *)
Definition count_of (k : string) (c : counts_t) : Z :=
  match PyObj.assoc k c with
  | Some v => v
  | None => 0
  end.

(** a [PrettyTable]: its header, its alignments and its data rows *)
Record table : Type := mk_table {
  field_names : list string;
  align : list (string * string);
  rows : list (string * Z)
}.

Definition add_row (tab : table) (row : string * Z) : table :=
  mk_table (field_names tab) (align tab) (rows tab ++ [row])%list.

Definition set_align (tab : table) (field a : string) : table :=
  mk_table (field_names tab) (align tab ++ [(field, a)])%list (rows tab).

(** what the program writes to the log, one constructor per message *)
Inductive log_entry : Type :=
| Loading (tweets_path : string)
| Processed (line_number : Z)
| Failed (line_number : Z) (e : exn)
| Found (has_hashtags num_tweets distinct : Z)
| Top (n : Z)
| Tab (tab : table).

Record scan : Type := mk_scan {
  counts : counts_t;
  num_tweets : Z;
  num_failed : Z;
  line_number : Z;
  has_hashtags : Z;
  log : list log_entry
}.

Definition set_counts (f : counts_t -> counts_t) (st : scan) : scan :=
  mk_scan (f (counts st)) (num_tweets st) (num_failed st) (line_number st)
          (has_hashtags st) (log st).

Definition incr_num_tweets (st : scan) : scan :=
  mk_scan (counts st) (num_tweets st + 1) (num_failed st) (line_number st)
          (has_hashtags st) (log st).

Definition incr_num_failed (st : scan) : scan :=
  mk_scan (counts st) (num_tweets st) (num_failed st + 1) (line_number st)
          (has_hashtags st) (log st).

Definition incr_line_number (st : scan) : scan :=
  mk_scan (counts st) (num_tweets st) (num_failed st) (line_number st + 1)
          (has_hashtags st) (log st).

Definition incr_has_hashtags (st : scan) : scan :=
  mk_scan (counts st) (num_tweets st) (num_failed st) (line_number st)
          (has_hashtags st + 1) (log st).

Definition emit (e : log_entry) (st : scan) : scan :=
  mk_scan (counts st) (num_tweets st) (num_failed st) (line_number st)
          (has_hashtags st) (log st ++ [e])%list.

(** ** The monad of the [try] block

    A computation ends normally, raises, or executes [continue]; in every
    case it returns the state with the mutations made so far. *)

Inductive signal (A : Type) : Type :=
| Next (a : A)
| Thrown (e : exn)
| Continue.

Arguments Next {A} a.
Arguments Thrown {A} e.
Arguments Continue {A}.

Definition M (A : Type) : Type := scan -> signal A * scan.

Definition ret {A : Type} (a : A) : M A := fun st => (Next a, st).

Definition bind {A B : Type} (m : M A) (k : A -> M B) : M B :=
  fun st =>
    match m st with
    | (Next a, st') => k a st'
    | (Thrown e, st') => (Thrown e, st')
    | (Continue, st') => (Continue, st')
    end.

Definition lift {A : Type} (r : result A) : M A :=
  fun st =>
    match r with
    | Ok a => (Next a, st)
    | Raise e => (Thrown e, st)
    end.

Definition continue {A : Type} : M A := fun st => (Continue, st).

Definition modify (f : scan -> scan) : M unit := fun st => (Next tt, f st).

Definition gets {A : Type} (f : scan -> A) : M A := fun st => (Next (f st), st).

Fixpoint for_each {A : Type} (l : list A) (body : A -> M unit) : M unit :=
  match l with
  | [] => ret tt
  | x :: rest => bind (body x) (fun _ => for_each rest body)
  end.

Declare Scope scan_scope.
Delimit Scope scan_scope with scan.
Notation "x <- m ;; k" := (bind m (fun x => k))
  (at level 61, m at next level, right associativity) : scan_scope.
Notation "m ;; k" := (bind m (fun _ => k))
  (at level 61, right associativity) : scan_scope.

(** ** The program: the loop over the lines of one file *)

(** [(start_date and sdate < start_date) or (end_date and sdate > end_date)] *)
Definition out_of_range (start_date end_date : option datetime)
  (sdate : datetime) : result bool :=
  (let? before :=
     (match start_date with
      | None => Ok false
      | Some sd => Datetime.lt sdate sd
      end) in
   if before then Ok true
   else match end_date with
        | None => Ok false
        | Some ed => Datetime.gt sdate ed
        end)%result.

Section Scan.

(** [json.loads], from the library: any decoder *)
Variable json_loads : string -> result json.

Variables start_date end_date : option datetime.

(** the body of the [for tag in ...] loop *)
Definition count_tag (tag : json) : M unit :=
  (v <- lift (PyObj.getitem tag "text") ;;
   lo <- lift (PyObj.lower v) ;;
   modify (set_counts (incr ("#" ++ PyStr.strip lo))))%scan.

(** the [if "entities" in tweet:] statement *)
Definition count_entities (tweet : json) : M unit :=
  (has_entities <- lift (PyObj.contains "entities" tweet) ;;
   if has_entities : bool then
     entities <- lift (PyObj.getitem tweet "entities") ;;
     has_key <- lift (PyObj.contains "hashtags" entities) ;;
     if has_key : bool then
       hashtags <- lift (PyObj.getitem entities "hashtags") ;;
       n <- lift (PyObj.len hashtags) ;;
       if n >? 0 then
         modify incr_has_hashtags ;;
         tags <- lift (PyObj.iter hashtags) ;;
         for_each tags count_tag
       else ret tt
     else ret tt
   else ret tt)%scan.

(** the [try] block, for the stripped, non-empty line [l] *)
Definition try_block (l : string) : M unit :=
  (modify incr_line_number ;;
   tweet <- lift (json_loads l) ;;
   created_at <- lift (PyObj.getitem tweet "created_at") ;;
   sdate <- lift (parse_twitter_date created_at true) ;;
   skip <- lift (out_of_range start_date end_date sdate) ;;
   if skip : bool then continue
   else
     count_entities tweet ;;
     modify incr_num_tweets ;;
     ln <- gets line_number ;;
     if ln mod 50000 =? 0 then modify (emit (Processed ln)) else ret tt)%scan.

(** the [except Exception as e] handler *)
Definition handler (e : exn) (st : scan) : scan :=
  incr_num_failed (emit (Failed (line_number st) e) st).

(** one iteration of [for l in fileinput.input(tweets_path)] *)
Definition process_line (st : scan) (l : string) : scan :=
  let l := PyStr.strip l in
  if PyStr.len l =? 0 then st
  else
    match try_block l st with
    | (Thrown e, st') => handler e st'
    | (_, st') => st'
    end.

(** the state when the loop starts, after [Loading tweets from ...] *)
Definition init (tweets_path : string) : scan :=
  mk_scan [] 0 0 0 0 [Loading tweets_path].

Definition scan_lines (st : scan) (lines : list string) : scan :=
  fold_left process_line lines st.

End Scan.

(** ** The program: the report of one file, and [main] *)

(** [sorted(counts.items(), key=operator.itemgetter(1), reverse=True)]:
    by decreasing count; the sort is stable, pairs of equal count keep the
    order they have in [counts]. *)
Fixpoint insert_desc (p : string * Z) (l : list (string * Z))
  : list (string * Z) :=
  match l with
  | [] => [p]
  | q :: l' => if snd q <=? snd p then p :: q :: l' else q :: insert_desc p l'
  end.

Fixpoint sorted_desc (l : list (string * Z)) : list (string * Z) :=
  match l with
  | [] => []
  | p :: l' => insert_desc p (sorted_desc l')
  end.

(** the loop [for i, pair in enumerate(sx)], entered with index [i] *)
Fixpoint display (top i : Z) (sx : list (string * Z)) (tab : table) : table :=
  match sx with
  | [] => tab
  | pair_ :: rest =>
      if i >? top then tab
      else display top (i + 1) rest (add_row tab pair_)
  end.

Definition empty_table : table :=
  set_align (set_align (mk_table ["Hashtag"; "Count"] [] []) "Hashtag" "l")
            "Count" "r".

(** the table of one file *)
Definition top_table (top : Z) (c : counts_t) : table :=
  display top 0 (sorted_desc c) empty_table.

(** the statements after the loop: the summary, the title and the table *)
Definition report (top : Z) (st : scan) : list log_entry :=
  let sx := sorted_desc (counts st) in
  (log st
   ++ [Found (has_hashtags st) (num_tweets st)
             (Z.of_nat (List.length (counts st)));
       Top (Z.min (Z.of_nat (List.length sx)) top);
       Tab (display top 0 sx empty_table)])%list.

Record options : Type := mk_options {
  opt_top : Z;
  opt_start_date : string;
  opt_end_date : string
}.

Definition default_options : options := mk_options 10 "" "".

(** [datetime.strptime(options.start_date, '%Y-%m-%d')] when the option
    is not empty, [None] otherwise *)
Definition date_option (s : string) : result (option datetime) :=
  match s with
  | EmptyString => Ok None
  | _ => (let? d := Strptime.strptime s option_format in Ok (Some d))%result
  end.

Section Main.

Variable json_loads : string -> result json.

(** the body of [for tweets_path in args]; a file is its path and the
    lines [fileinput.input] reads from it *)
Definition process_file (top : Z) (start_date end_date : option datetime)
  (file : string * list string) : list log_entry :=
  report top
    (scan_lines json_loads start_date end_date (init (fst file)) (snd file)).

(** [main]: the log written, or the exception that ends the program *)
Definition main (opts : options) (args : list (string * list string))
  : result (list log_entry) :=
  if Z.of_nat (List.length args) <? 1 then Raise (SystemExit 2)
  else
    (let? start_date := date_option (opt_start_date opts) in
     let? end_date := date_option (opt_end_date opts) in
     Ok (flat_map (process_file (opt_top opts) start_date end_date) args))%result.

End Main.

(** ** A JSON decoder for the examples

    [json_loads] above is any decoder.  The examples below run the program
    on text, with this decoder of a fragment of JSON: objects, arrays,
    strings without escape sequences, integers, [true], [false], [null],
    white space between tokens.  Text outside the fragment is rejected. *)

Module JsonFragment.

Definition dquote : ascii := ascii_of_N 34.
Definition backslash : ascii := ascii_of_N 92.

Definition is_ws (c : ascii) : bool :=
  let n := N_of_ascii c in ((n =? 32) || (n =? 9) || (n =? 10) || (n =? 13))%N.

Fixpoint skip (s : string) : string :=
  match s with
  | EmptyString => EmptyString
  | String c s' => if is_ws c then skip s' else s
  end.

(** the characters up to the closing quote *)
Fixpoint str_body (s : string) : option (string * string) :=
  match s with
  | EmptyString => None
  | String c s' =>
      if Ascii.eqb c dquote then Some (EmptyString, s')
      else if Ascii.eqb c backslash || (N_of_ascii c <? 32)%N then None
      else match str_body s' with
           | Some (t, r) => Some (String c t, r)
           | None => None
           end
  end.

Fixpoint digits (s : string) (acc : Z) : Z * string :=
  match s with
  | EmptyString => (acc, s)
  | String c s' =>
      match Strptime.digit_val c with
      | Some v => digits s' (acc * 10 + v)
      | None => (acc, s)
      end
  end.

(** an integer: no leading zero, no fraction, no exponent *)
Definition number (s : string) : option (Z * string) :=
  match s with
  | EmptyString => None
  | String c s' =>
      if Re.digit c then
        let '(v, r) := digits s 0 in
        let one_digit := String.eqb s' r in
        let goes_on :=
          match r with
          | String x _ => Ascii.eqb x "." || Ascii.eqb x "e" || Ascii.eqb x "E"
          | EmptyString => false
          end in
        if goes_on || (Ascii.eqb c "0" && negb one_digit) then None
        else Some (v, r)
      else None
  end.

(** [d[k] = v] on a dict *)
Fixpoint dict_set (k : string) (v : json) (kvs : list (string * json))
  : list (string * json) :=
  match kvs with
  | [] => [(k, v)]
  | (k', v') :: rest =>
      if String.eqb k k' then (k', v) :: rest else (k', v') :: dict_set k v rest
  end.

Definition keyword (w : string) (v : json) (s : string) : option (json * string) :=
  if String.prefix w s
  then Some (v, String.substring (String.length w)
                                 (String.length s - String.length w) s)
  else None.

Fixpoint value (fuel : nat) (s : string) : option (json * string) :=
  match fuel with
  | O => None
  | S f =>
      match skip s with
      | EmptyString => None
      | String c r =>
          if Ascii.eqb c "{" then
            match skip r with
            | String c' r' =>
                if Ascii.eqb c' "}" then Some (JDict [], r')
                else members f r []
            | EmptyString => None
            end
          else if Ascii.eqb c "[" then
            match skip r with
            | String c' r' =>
                if Ascii.eqb c' "]" then Some (JList [], r')
                else elements f r []
            | EmptyString => None
            end
          else if Ascii.eqb c dquote then
            match str_body r with
            | Some (t, r') => Some (JStr t, r')
            | None => None
            end
          else if Ascii.eqb c "-" then
            match number r with
            | Some (v, r') => Some (JInt (- v), r')
            | None => None
            end
          else if Re.digit c then
            match number (String c r) with
            | Some (v, r') => Some (JInt v, r')
            | None => None
            end
          else
            match keyword "true" (JBool true) (String c r) with
            | Some x => Some x
            | None =>
                match keyword "false" (JBool false) (String c r) with
                | Some x => Some x
                | None => keyword "null" JNull (String c r)
                end
            end
      end
  end
with members (fuel : nat) (s : string) (acc : list (string * json))
  : option (json * string) :=
  match fuel with
  | O => None
  | S f =>
      match skip s with
      | EmptyString => None
      | String c r =>
          if Ascii.eqb c dquote then
            match str_body r with
            | None => None
            | Some (k, r1) =>
                match skip r1 with
                | EmptyString => None
                | String c2 r2 =>
                    if Ascii.eqb c2 ":" then
                      match value f r2 with
                      | None => None
                      | Some (v, r3) =>
                          match skip r3 with
                          | EmptyString => None
                          | String c4 r4 =>
                              if Ascii.eqb c4 "," then
                                members f r4 (dict_set k v acc)
                              else if Ascii.eqb c4 "}" then
                                Some (JDict (dict_set k v acc), r4)
                              else None
                          end
                      end
                    else None
                end
            end
          else None
      end
  end
with elements (fuel : nat) (s : string) (acc : list json)
  : option (json * string) :=
  match fuel with
  | O => None
  | S f =>
      match value f s with
      | None => None
      | Some (v, r1) =>
          match skip r1 with
          | EmptyString => None
          | String c r2 =>
              if Ascii.eqb c "," then elements f r2 (acc ++ [v])%list
              else if Ascii.eqb c "]" then Some (JList (acc ++ [v])%list, r2)
              else None
          end
      end
  end.

Definition json_loads (s : string) : result json :=
  match value (S (String.length s)) s with
  | Some (v, r) =>
      match skip r with
      | EmptyString => Ok v
      | _ => Raise ValueError
      end
  | None => Raise ValueError
  end.

(** a line of JSON written with ['] where JSON has the double quote *)
Fixpoint q (s : string) : string :=
  match s with
  | EmptyString => EmptyString
  | String c s' => String (if Ascii.eqb c "'" then dquote else c) (q s')
  end.

End JsonFragment.

(** ** Notions used in the statements *)

(** the first three steps of the [try] block: the record of a line and
    its date *)
Definition read_record (json_loads : string -> result json) (l : string)
  : result (json * datetime) :=
  (let? tweet := json_loads l in
   let? created_at := PyObj.getitem tweet "created_at" in
   let? sdate := parse_twitter_date created_at true in
   Ok (tweet, sdate))%result.

(** the key of one hashtag entity *)
Definition tag_key (tag : json) : result string :=
  (let? v := PyObj.getitem tag "text" in
   let? lo := PyObj.lower v in
   Ok ("#" ++ PyStr.strip lo))%result.

(** the hashtag entries the loop of a record runs over; none when the
    record has no [entities], no [hashtags] in them, or an empty list *)
Definition record_tags (tweet : json) : result (list json) :=
  (let? has_entities := PyObj.contains "entities" tweet in
   if has_entities : bool then
     let? entities := PyObj.getitem tweet "entities" in
     let? has_key := PyObj.contains "hashtags" entities in
     if has_key : bool then
       let? hashtags := PyObj.getitem entities "hashtags" in
       let? n := PyObj.len hashtags in
       if n >? 0 then PyObj.iter hashtags else Ok []
     else Ok []
   else Ok [])%result.

(** the loop over the entries, on the counts alone: the counts it leaves
    and the exception that stopped it, if any *)
Fixpoint count_tags (tags : list json) (c : counts_t) : counts_t * option exn :=
  match tags with
  | [] => (c, None)
  | tag :: rest =>
      match tag_key tag with
      | Ok k => count_tags rest (incr k c)
      | Raise e => (c, Some e)
      end
  end.

(** the statements of the [try] block after the date filter *)
Definition finish (st : scan) : scan :=
  let st' := incr_num_tweets st in
  if line_number st' mod 50000 =? 0
  then emit (Processed (line_number st')) st'
  else st'.

(** the [try] block without the monad: what it returns and the state it
    leaves, by cases on the line *)
Definition try_block_cases (json_loads : string -> result json)
  (start_date end_date : option datetime) (l : string) (st : scan)
  : signal unit * scan :=
  let st1 := incr_line_number st in
  match read_record json_loads l with
  | Raise e => (Thrown e, st1)
  | Ok (tweet, sdate) =>
      match out_of_range start_date end_date sdate with
      | Raise e => (Thrown e, st1)
      | Ok true => (Continue, st1)
      | Ok false =>
          match record_tags tweet with
          | Raise e => (Thrown e, st1)
          | Ok [] => (Next tt, finish st1)
          | Ok tags =>
              let st2 := incr_has_hashtags st1 in
              match count_tags tags (counts st2) with
              | (c, Some e) => (Thrown e, set_counts (fun _ => c) st2)
              | (c, None) => (Next tt, finish (set_counts (fun _ => c) st2))
              end
          end
      end
  end.

(** a date inside the range: not strictly before the start, not strictly
    after the end; an absent bound does not restrict *)
Definition within (start_date end_date : option datetime) (d : datetime)
  : bool :=
  match start_date with
  | Some sd =>
      match Datetime.lex_compare (Datetime.fields d) (Datetime.fields sd) with
      | Lt => false
      | _ => true
      end
  | None => true
  end
  && match end_date with
     | Some ed =>
         match Datetime.lex_compare (Datetime.fields d) (Datetime.fields ed) with
         | Gt => false
         | _ => true
         end
     | None => true
     end.

(** the sum of the values of the mapping *)
Fixpoint sum_counts (c : counts_t) : Z :=
  match c with
  | [] => 0
  | (_, v) :: rest => v + sum_counts rest
  end.





(** the token layout of the specification,
    [<weekday> <month> <day> <HH:MM:SS> [<tz>] <year>], as far as the
    number of tokens goes: five, or six with the time zone *)
Definition spec_token_layout (s : string) : bool :=
  let n := List.length (PyStr.split s) in
  ((n =? 5) || (n =? 6))%nat.

(** a token: a text without a space *)
Fixpoint token (s : string) : bool :=
  match s with
  | EmptyString => true
  | String c s' => negb (Ascii.eqb c " ") && token s'
  end.

(** the keys of the entries of a record up to the first one without a key *)
Fixpoint counted_keys (tags : list json) : list string :=
  match tags with
  | [] => []
  | tag :: rest =>
      match tag_key tag with
      | Ok k => k :: counted_keys rest
      | Raise _ => []
      end
  end.

(** [counts[k] += 1] for each key of a list, in order *)
Definition incr_all (keys : list string) (c : counts_t) : counts_t :=
  fold_left (fun c' k => incr k c') keys c.

(** the hashtag entries of the record of a line, when the line holds a
    record that the date range does not filter out; none otherwise *)
Definition line_tags (json_loads : string -> result json)
  (start_date end_date : option datetime) (l : string) : list json :=
  let l := PyStr.strip l in
  if PyStr.len l =? 0 then []
  else
    match read_record json_loads l with
    | Raise _ => []
    | Ok (tweet, sdate) =>
        match out_of_range start_date end_date sdate with
        | Ok false =>
            match record_tags tweet with
            | Ok tags => tags
            | Raise _ => []
            end
        | _ => []
        end
    end.

(** the number of hashtag entries in the records of a file that are not
    filtered out *)
Definition total_entries (json_loads : string -> result json)
  (start_date end_date : option datetime) (lines : list string) : Z :=
  Z.of_nat (List.length
              (flat_map (line_tags json_loads start_date end_date) lines)).

(** the keys a file increments: per record, those of its entries up to the
    first one without a key *)
Definition file_keys (json_loads : string -> result json)
  (start_date end_date : option datetime) (lines : list string)
  : list string :=
  flat_map (fun l => counted_keys (line_tags json_loads start_date end_date l))
           lines.

(** the exception of the first entry without a key, if there is one *)
Fixpoint first_error (tags : list json) : option exn :=
  match tags with
  | [] => None
  | tag :: rest =>
      match tag_key tag with
      | Ok _ => first_error rest
      | Raise e => Some e
      end
  end.

(** what becomes of a line *)
Inductive outcome : Type :=
| Blank
| Fails (e : exn)
| Filtered
| Counted.

Definition classify (json_loads : string -> result json)
  (start_date end_date : option datetime) (l : string) : outcome :=
  let l := PyStr.strip l in
  if PyStr.len l =? 0 then Blank
  else
    match read_record json_loads l with
    | Raise e => Fails e
    | Ok (tweet, sdate) =>
        match out_of_range start_date end_date sdate with
        | Raise e => Fails e
        | Ok true => Filtered
        | Ok false =>
            match record_tags tweet with
            | Raise e => Fails e
            | Ok tags =>
                match first_error tags with
                | Some e => Fails e
                | None => Counted
                end
            end
        end
    end.

(** the state after a line, from the outcome of the line, the keys it
    increments and whether it has hashtag entries *)
Definition after_line (o : outcome) (keys : list string) (tagged : bool)
  (st : scan) : scan :=
  let n := line_number st + 1 in
  let hh := has_hashtags st + (if tagged then 1 else 0) in
  let c := incr_all keys (counts st) in
  match o with
  | Blank => st
  | Filtered => incr_line_number st
  | Fails e =>
      mk_scan c (num_tweets st) (num_failed st + 1) n hh
              (log st ++ [Failed n e])%list
  | Counted =>
      mk_scan c (num_tweets st + 1) (num_failed st) n hh
              (log st ++ (if n mod 50000 =? 0 then [Processed n] else []))%list
  end.

Definition nonempty {A : Type} (l : list A) : bool :=
  match l with
  | [] => false
  | _ :: _ => true
  end.

(** the directives of a compiled format, in order *)
Definition directives (items : list Strptime.item) : list Strptime.directive :=
  flat_map (fun it => match it with
                      | Strptime.Group d => [d]
                      | _ => []
                      end) items.

(** the ranges the constructor of [datetime] checks *)
Definition valid_datetime (d : datetime) : Prop :=
  1 <= year d <= 9999 /\ 1 <= month d <= 12
  /\ 1 <= day d <= Datetime.days_in_month (year d) (month d)
  /\ 0 <= hour d <= 23 /\ 0 <= minute d <= 59 /\ 0 <= second d <= 59
  /\ 0 <= microsecond d <= 999999.



(** the line feed *)
Definition nl : string := String (ascii_of_N 10) EmptyString.

(** ** Example lines *)

Module Examples.

Import JsonFragment.

(** the example of the specification *)
Definition foo_line : string :=
  q "{'created_at':'Mon Jan 01 10:00:00 +0000 2024','entities':{'hashtags':[{'text':'Foo'}]}}"
  ++ nl.

(** a record whose second hashtag entity has no text *)
Definition partial_line : string :=
  q "{'created_at':'Mon Jan 01 10:00:00 +0000 2024','entities':{'hashtags':[{'text':' ABC '},{}]}}"
  ++ nl.

(** the record and the date of both lines *)
Definition foo_created_at : json := JStr "Mon Jan 01 10:00:00 +0000 2024".

Definition foo_tweet : json :=
  JDict [("created_at", foo_created_at);
         ("entities",
          JDict [("hashtags", JList [JDict [("text", JStr "Foo")]])])].

Definition partial_tweet : json :=
  JDict [("created_at", foo_created_at);
         ("entities",
          JDict [("hashtags", JList [JDict [("text", JStr " ABC ")];
                                     JDict []])])].

Definition foo_date : datetime := mk_datetime 2024 1 1 10 0 0 0 None.

(** midnight of a day, as [--start_date] and [--end_date] give it *)
Definition midnight (y m d : Z) : datetime := mk_datetime y m d 0 0 0 0 None.

(** the same record dated at 00:00:00 *)
Definition midnight_created_at : json := JStr "Mon Jan 01 00:00:00 +0000 2024".

Definition midnight_tweet : json :=
  JDict [("created_at", midnight_created_at);
         ("entities",
          JDict [("hashtags", JList [JDict [("text", JStr "Foo")]])])].

Definition midnight_line : string :=
  q "{'created_at':'Mon Jan 01 00:00:00 +0000 2024','entities':{'hashtags':[{'text':'Foo'}]}}"
  ++ nl.



(** a line that is not JSON *)
Definition garbage_line : string := "x" ++ nl.

Definition blank_line : string := "  " ++ nl.

End Examples.

(** ** Further notions: lines, logs and keys *)


(** a line that is not blank *)
Definition nonblank (l : string) : bool :=
  negb (PyStr.len (PyStr.strip l) =? 0).

(** the number of non-blank lines *)
Definition count_nonblank (lines : list string) : Z :=
  Z.of_nat (List.length (filter nonblank lines)).

Definition is_failure (entry : log_entry) : bool :=
  match entry with
  | Failed _ _ => true
  | _ => false
  end.

(** the state a failure before the hashtag entities leaves: only the
    counters of lines and of failures and the log change *)
Definition failed_before_tags (e : exn) (st : scan) : scan :=
  mk_scan (counts st) (num_tweets st) (num_failed st + 1) (line_number st + 1)
          (has_hashtags st)
          (log st ++ [Failed (line_number st + 1) e])%list.

(** the state a record without hashtag entries leaves: it is counted as
    processed, with the progress notice when due *)
Definition processed_without_tags (st : scan) : scan :=
  mk_scan (counts st) (num_tweets st + 1) (num_failed st) (line_number st + 1)
          (has_hashtags st)
          (log st ++ (if (line_number st + 1) mod 50000 =? 0
                      then [Processed (line_number st + 1)] else []))%list.

(** the keys of a list in the order of their first occurrence *)
Definition add_key (seen : list string) (k : string) : list string :=
  if existsb (String.eqb k) seen then seen else (seen ++ [k])%list.

Definition first_seen (keys : list string) : list string :=
  fold_left add_key keys [].

(** a key in normal form: ["#"], then a text without capital letters and
    without white space around it *)
Definition normal_key (k : string) : Prop :=
  exists t, k = String "#" t /\ PyStr.strip t = t /\ PyStr.lower t = t.

(** a value that is neither a dict, nor a list, nor a string *)
Definition scalar (v : json) : bool :=
  match v with
  | JNull | JBool _ | JInt _ | JFloat _ => true
  | _ => false
  end.

Definition is_dict (v : json) : bool :=
  match v with
  | JDict _ => true
  | _ => false
  end.

Definition is_string (v : json) : bool :=
  match v with
  | JStr _ => true
  | _ => false
  end.

(** ** The layout of a date

    What the layout [%a %b %d %H:%M:%S %Y] asks of a text, written without
    the matcher: a day of the week and a month by their English
    abbreviations in any letter case, the day, the time and a year of four
    digits as numbers, white space between them and colons inside the
    time.  The numbers and the month are those of the timestamp [d]. *)

Fixpoint all_space (w : string) : bool :=
  match w with
  | EmptyString => true
  | String c w' => PyStr.isspace c && all_space w'
  end.

(** a run of white space, at least one character *)
Definition spaces (w : string) : Prop :=
  w <> EmptyString /\ all_space w = true.

(** the text up to the white space after the seconds *)
Definition layout_head (text rest : string) (d : datetime) : Prop :=
  exists wd w1 mon w2 dd w3 HH MM SS w4,
    text = wd ++ w1 ++ mon ++ w2 ++ dd ++ w3
           ++ HH ++ ":" ++ MM ++ ":" ++ SS ++ w4 ++ rest
    /\ In (PyStr.lower wd) Strptime.weekdays
    /\ Strptime.index_of (PyStr.lower mon) Strptime.months
       = Some (month d - 1)
    /\ Strptime.int_of dd = Ok (day d)
    /\ Strptime.int_of HH = Ok (hour d)
    /\ Strptime.int_of MM = Ok (minute d)
    /\ Strptime.int_of SS = Ok (second d)
    /\ spaces w1 /\ spaces w2 /\ spaces w3 /\ spaces w4.

(** a year of four digits *)
Definition layout_year (text : string) (d : datetime) : Prop :=
  String.length text = 4%nat /\ Strptime.int_of text = Ok (year d).

(** [%a %b %d %H:%M:%S %Y]: the year follows the time, no time zone *)
Definition layout_naive (text : string) (d : datetime) : Prop :=
  exists YYYY,
    layout_head text YYYY d /\ layout_year YYYY d /\ tzinfo d = None.

(** [%a %b %d %H:%M:%S %z %Y]: an offset from UTC between the time and the
    year *)
Definition layout_aware (text : string) (d : datetime) : Prop :=
  exists z w5 YYYY off,
    layout_head text (z ++ w5 ++ YYYY) d /\ layout_year YYYY d
    /\ spaces w5
    /\ Strptime.tz_of z = Ok off /\ tzinfo d = Some off.

(** * Properties *)

(** ** Strings *)

Lemma isspace_lower_char (c : ascii) :
  PyStr.isspace (PyStr.lower_char c) = PyStr.isspace c.
Proof. destruct c as [[] [] [] [] [] [] [] []]; reflexivity. Qed.

Lemma lower_char_idem (c : ascii) :
  PyStr.lower_char (PyStr.lower_char c) = PyStr.lower_char c.
Proof. destruct c as [[] [] [] [] [] [] [] []]; reflexivity. Qed.

Lemma lstrip_lower (s : string) :
  PyStr.lstrip (PyStr.lower s) = PyStr.lower (PyStr.lstrip s).
Proof.
  induction s as [|c s IH]; simpl; [reflexivity|].
  rewrite isspace_lower_char. destruct (PyStr.isspace c); [exact IH|reflexivity].
Qed.

Lemma rstrip_lower (s : string) :
  PyStr.rstrip (PyStr.lower s) = PyStr.lower (PyStr.rstrip s).
Proof.
  induction s as [|c s IH]; simpl; [reflexivity|].
  rewrite IH, isspace_lower_char.
  destruct (PyStr.rstrip s); simpl; [destruct (PyStr.isspace c)|]; reflexivity.
Qed.

Lemma strip_lower (s : string) :
  PyStr.strip (PyStr.lower s) = PyStr.lower (PyStr.strip s).
Proof. unfold PyStr.strip. now rewrite lstrip_lower, rstrip_lower. Qed.

(** ** The [try] block, case by case *)

Lemma len_iter (h : json) (n : Z) :
  PyObj.len h = Ok n -> (n >? 0) = true ->
  exists tag tags, PyObj.iter h = Ok (tag :: tags).
Proof.
  destruct h as [| | | |s|items|kvs]; simpl; try discriminate;
    intros [= <-] Hn.
  - destruct s; [discriminate|]. simpl. eauto.
  - destruct items; [discriminate|]. eauto.
  - destruct kvs; [discriminate|]. simpl. eauto.
Qed.

Lemma count_tag_key (tag : json) (st : scan) :
  count_tag tag st =
  match tag_key tag with
  | Ok k => (Next tt, set_counts (incr k) st)
  | Raise e => (Thrown e, st)
  end.
Proof.
  unfold count_tag, tag_key, bind, lift, modify.
  destruct (PyObj.getitem tag "text") as [v|e]; simpl; [|reflexivity].
  destruct (PyObj.lower v); reflexivity.
Qed.

Lemma for_each_count_tags (tags : list json) (st : scan) :
  for_each tags count_tag st =
  match count_tags tags (counts st) with
  | (c, Some e) => (Thrown e, set_counts (fun _ => c) st)
  | (c, None) => (Next tt, set_counts (fun _ => c) st)
  end.
Proof.
  revert st. induction tags as [|tag tags IH]; intros st; simpl.
  - destruct st; reflexivity.
  - unfold bind. rewrite count_tag_key.
    destruct (tag_key tag) as [k|e]; [|destruct st; reflexivity].
    rewrite IH. simpl. destruct (count_tags tags (incr k (counts st))) as [c [e|]];
      reflexivity.
Qed.

Section TryBlock.

Variable json_loads : string -> result json.
Variables start_date end_date : option datetime.

Lemma count_entities_cases (tweet : json) (st : scan) :
  count_entities tweet st =
  match record_tags tweet with
  | Raise e => (Thrown e, st)
  | Ok [] => (Next tt, st)
  | Ok tags =>
      let st2 := incr_has_hashtags st in
      match count_tags tags (counts st2) with
      | (c, Some e) => (Thrown e, set_counts (fun _ => c) st2)
      | (c, None) => (Next tt, set_counts (fun _ => c) st2)
      end
  end.
Proof.
  unfold count_entities, record_tags, bind, lift, modify, ret.
  destruct (PyObj.contains "entities" tweet) as [[]|]; simpl; try reflexivity.
  destruct (PyObj.getitem tweet "entities") as [ent|]; simpl; try reflexivity.
  destruct (PyObj.contains "hashtags" ent) as [[]|]; simpl; try reflexivity.
  destruct (PyObj.getitem ent "hashtags") as [h|]; simpl; try reflexivity.
  destruct (PyObj.len h) as [n|] eqn:Hlen; simpl; try reflexivity.
  destruct (n >? 0) eqn:Hn; [|reflexivity].
  destruct (len_iter _ _ Hlen Hn) as (tag & tags & ->).
  exact (for_each_count_tags (tag :: tags) (incr_has_hashtags st)).
Qed.

#[local] Arguments count_entities : simpl never.
#[local] Arguments parse_twitter_date : simpl never.
#[local] Arguments out_of_range : simpl never.
#[local] Arguments record_tags : simpl never.

Lemma try_block_is_cases (l : string) (st : scan) :
  try_block json_loads start_date end_date l st =
  try_block_cases json_loads start_date end_date l st.
Proof.
  unfold try_block, try_block_cases, read_record, bind, lift, modify, continue,
    gets, ret, finish.
  simpl.
  destruct (json_loads l) as [tweet|]; simpl; try reflexivity.
  destruct (PyObj.getitem tweet "created_at") as [c|]; simpl; try reflexivity.
  destruct (parse_twitter_date c true) as [sdate|]; simpl; try reflexivity.
  destruct (out_of_range start_date end_date sdate) as [[]|]; simpl;
    try reflexivity.
  rewrite count_entities_cases.
  destruct (record_tags tweet) as [[|tag tags]|]; try reflexivity.
  - simpl. destruct (_ =? 0); reflexivity.
  - cbv zeta.
    destruct (count_tags (tag :: tags) _) as [c' [e|]]; simpl; try reflexivity.
    destruct (_ =? 0); reflexivity.
Qed.

End TryBlock.

(** ** The counts mapping *)

Lemma count_of_incr_same (k : string) (c : counts_t) :
  count_of k (incr k c) = count_of k c + 1.
Proof.
  unfold count_of. induction c as [|[k' v] c IH]; simpl.
  - now rewrite String.eqb_refl.
  - destruct (String.eqb k k') eqn:E; simpl; rewrite E; [reflexivity|exact IH].
Qed.

Lemma count_of_incr_other (k k' : string) (c : counts_t) :
  k' <> k -> count_of k' (incr k c) = count_of k' c.
Proof.
  unfold count_of. intros Hne. induction c as [|[k0 v] c IH]; simpl.
  - destruct (String.eqb_spec k' k); [contradiction|reflexivity].
  - destruct (String.eqb_spec k k0) as [->|]; simpl.
    + destruct (String.eqb_spec k' k0); [contradiction|reflexivity].
    + destruct (String.eqb k' k0); [reflexivity|exact IH].
Qed.

Lemma count_of_incr_le (k k' : string) (c : counts_t) :
  count_of k' c <= count_of k' (incr k c).
Proof.
  destruct (string_dec k' k) as [->|Hne].
  - rewrite count_of_incr_same. lia.
  - rewrite (count_of_incr_other _ _ _ Hne). lia.
Qed.

Lemma sum_counts_incr (k : string) (c : counts_t) :
  sum_counts (incr k c) = sum_counts c + 1.
Proof.
  induction c as [|[k' v] c IH]; simpl; [reflexivity|].
  destruct (String.eqb k k'); simpl; lia.
Qed.

Lemma keys_incr (k : string) (c : counts_t) :
  map fst (incr k c) =
  if existsb (String.eqb k) (map fst c) then map fst c
  else (map fst c ++ [k])%list.
Proof.
  induction c as [|[k' v] c IH]; simpl; [reflexivity|].
  destruct (String.eqb k k'); simpl; [reflexivity|].
  rewrite IH. destruct (existsb _ _); reflexivity.
Qed.

Lemma NoDup_keys_incr (k : string) (c : counts_t) :
  NoDup (map fst c) -> NoDup (map fst (incr k c)).
Proof.
  intros Hnd. rewrite keys_incr.
  destruct (existsb (String.eqb k) (map fst c)) eqn:E; [exact Hnd|].
  apply NoDup_app; [exact Hnd|repeat constructor; intros []|].
  intros x Hx. simpl. intros [<-|[]].
  apply Bool.not_true_iff_false in E. apply E.
  apply existsb_exists. exists k. split; [exact Hx|apply String.eqb_refl].
Qed.

(** ** Blank lines *)

(** C8. A blank line - empty once the white space around it is stripped -
    is skipped silently: the whole state of the scan (the counts, the
    counter of failures, the counter of lines, the counters of tweets and
    the log) is the same after the line as before it. *)
Theorem blank_line_skipped
  (json_loads : string -> result json) (start_date end_date : option datetime)
  (st : scan) (l : string) :
  PyStr.strip l = EmptyString ->
  process_line json_loads start_date end_date st l = st.
Proof.
  intros Hblank. unfold process_line. now rewrite Hblank.
Qed.

Lemma blank_line_skipped_witness :
  PyStr.strip Examples.blank_line = EmptyString
  /\ process_line JsonFragment.json_loads None None
       (mk_scan [("#foo", 1)] 1 2 3 1 []) Examples.blank_line
     = mk_scan [("#foo", 1)] 1 2 3 1 [].
Proof.
  split; [reflexivity|].
  apply (blank_line_skipped JsonFragment.json_loads None None
           (mk_scan [("#foo", 1)] 1 2 3 1 []) Examples.blank_line).
  reflexivity.
Defined.

(** ** Hashtag keys *)




(** ** [strptime]: what a result looks like *)

Lemma new_inv (y m d hh mi ss us : Z) (tz : option Z) (r : datetime) :
  Datetime.new y m d hh mi ss us tz = Ok r ->
  r = mk_datetime y m d hh mi ss us tz /\ valid_datetime r.
Proof.
  unfold Datetime.new, Datetime.in_range, valid_datetime.
  destruct (_ && _) eqn:E; [|discriminate]. intros [= <-]. simpl.
  repeat (apply andb_true_iff in E as [E ?]). split; [reflexivity|]. lia.
Qed.

Lemma matches_directives (items : list Strptime.item) :
  forall s found rest,
    In (found, rest) (Strptime.matches items s) ->
    map fst found = directives items.
Proof.
  induction items as [|it items IH]; simpl; intros s found rest Hin.
  - destruct Hin as [[= <- _]|[]]. reflexivity.
  - apply in_flat_map in Hin as (m & _ & Hin).
    apply in_map_iff in Hin as ([found' rest'] & [= <- _] & Hin').
    rewrite map_app, (IH _ _ _ Hin'). destruct it; reflexivity.
Qed.

Lemma set_field_frame (f : Strptime.directive * string) (acc r : datetime) :
  Strptime.set_field f acc = Ok r ->
  (fst f <> Strptime.Dz -> tzinfo r = tzinfo acc)
  /\ (fst f <> Strptime.DH -> hour r = hour acc)
  /\ (fst f <> Strptime.DM -> minute r = minute acc)
  /\ (fst f <> Strptime.DS -> second r = second acc)
  /\ microsecond r = microsecond acc.
Proof.
  unfold Strptime.set_field, rbind. destruct f as [d txt]. cbn [fst snd].
  destruct d;
    try (destruct (Strptime.int_of txt); [|discriminate]);
    try (destruct (Strptime.tz_of txt); [|discriminate]);
    try (destruct (Strptime.index_of _ _); [|discriminate]);
    intros H; inversion H; subst; cbn [tzinfo hour minute second microsecond];
    repeat split; congruence.
Qed.

Lemma convert_frame (found : list (Strptime.directive * string)) :
  forall acc r,
    Strptime.convert found acc = Ok r ->
    (~ In Strptime.Dz (map fst found) -> tzinfo r = tzinfo acc)
    /\ (~ In Strptime.DH (map fst found) -> hour r = hour acc)
    /\ (~ In Strptime.DM (map fst found) -> minute r = minute acc)
    /\ (~ In Strptime.DS (map fst found) -> second r = second acc)
    /\ microsecond r = microsecond acc.
Proof.
  induction found as [|f found IH]; simpl; intros acc r H.
  - assert (acc = r) as <- by congruence. repeat split; reflexivity.
  - destruct (Strptime.set_field f acc) as [acc'|] eqn:E; simpl in H;
      [|discriminate].
    destruct (set_field_frame _ _ _ E) as (Hz & Hh & Hm & Hs & Hu).
    destruct (IH _ _ H) as (Hz' & Hh' & Hm' & Hs' & Hu').
    repeat split.
    + intros Hn. rewrite Hz', Hz; tauto.
    + intros Hn. rewrite Hh', Hh; tauto.
    + intros Hn. rewrite Hm', Hm; tauto.
    + intros Hn. rewrite Hs', Hs; tauto.
    + congruence.
Qed.

Lemma strptime_inv (data fmt : string) (d : datetime) :
  Strptime.strptime data fmt = Ok d ->
  exists items found f,
    Strptime.compile fmt = Some items
    /\ map fst found = directives items
    /\ Strptime.convert found Strptime.defaults = Ok f
    /\ d = mk_datetime (year f) (month f) (day f) (hour f) (minute f)
                       (second f) (microsecond f) (tzinfo f)
    /\ valid_datetime d.
Proof.
  unfold Strptime.strptime.
  destruct (Strptime.compile fmt) as [items|]; [|discriminate].
  destruct (Strptime.matches items data) as [|[found rest] ms] eqn:Hm;
    [discriminate|].
  destruct rest; [|discriminate].
  destruct (Strptime.convert found Strptime.defaults) as [f|] eqn:Hc; simpl;
    [|discriminate].
  intros Hnew. apply new_inv in Hnew as [-> Hv].
  exists items, found, f.
  split; [reflexivity|]. split; [|split; [exact Hc|split; [reflexivity|exact Hv]]].
  apply (matches_directives items data found EmptyString).
  rewrite Hm. now left.
Qed.

(** a date read with the layout of tweets is naive and valid, its
    microsecond is 0 *)
Lemma strptime_twitter_format (data : string) (d : datetime) :
  Strptime.strptime data twitter_format = Ok d ->
  tzinfo d = None /\ microsecond d = 0 /\ valid_datetime d.
Proof.
  intros H. apply strptime_inv in H as (items & found & f & Hc & Hd & Hf & -> & Hv).
  injection Hc as <-. simpl in Hd.
  destruct (convert_frame _ _ _ Hf) as (Hz & _ & _ & _ & Hu).
  assert (Hnot : forall x, In x [Strptime.Dz] -> ~ In x (map fst found))
    by (rewrite Hd; simpl; intuition (subst; discriminate)).
  simpl. split; [apply Hz, Hnot; simpl; tauto|]. split; [exact Hu|exact Hv].
Qed.

(** a date read from an option is naive and valid, its time is 00:00:00 *)
Lemma strptime_option_format (data : string) (d : datetime) :
  Strptime.strptime data option_format = Ok d ->
  tzinfo d = None /\ hour d = 0 /\ minute d = 0 /\ second d = 0
  /\ microsecond d = 0 /\ valid_datetime d.
Proof.
  intros H. apply strptime_inv in H as (items & found & f & Hc & Hd & Hf & -> & Hv).
  injection Hc as <-. simpl in Hd.
  destruct (convert_frame _ _ _ Hf) as (Hz & Hh & Hm & Hs & Hu).
  assert (Hnot : forall x,
             In x [Strptime.Dz; Strptime.DH; Strptime.DM; Strptime.DS] ->
             ~ In x (map fst found))
    by (rewrite Hd; simpl; intuition (subst; discriminate)).
  simpl. split; [apply Hz, Hnot; simpl; tauto|].
  split; [apply Hh, Hnot; simpl; tauto|].
  split; [apply Hm, Hnot; simpl; tauto|].
  split; [apply Hs, Hnot; simpl; tauto|].
  split; [exact Hu|exact Hv].
Qed.

Lemma parse_twitter_date_naive (created_at : json) (d : datetime) :
  parse_twitter_date created_at true = Ok d ->
  tzinfo d = None /\ microsecond d = 0 /\ valid_datetime d.
Proof.
  unfold parse_twitter_date. destruct created_at; try discriminate.
  intros E. exact (strptime_twitter_format _ _ E).
Qed.

Lemma date_option_naive (s : string) (bound : option datetime) :
  date_option s = Ok bound ->
  forall d, bound = Some d ->
    tzinfo d = None /\ hour d = 0 /\ minute d = 0 /\ second d = 0
    /\ microsecond d = 0 /\ valid_datetime d.
Proof.
  unfold date_option. destruct s as [|c s]; [intros [= <-] d; discriminate|].
  destruct (Strptime.strptime _ option_format) as [d'|] eqn:E; simpl;
    [|discriminate].
  intros [= <-] d [= <-]. exact (strptime_option_format _ _ E).
Qed.

(** ** The date filter *)

Lemma len_zero (s : string) : (PyStr.len s =? 0) = true <-> s = EmptyString.
Proof.
  unfold PyStr.len. destruct s; simpl; split; try reflexivity; discriminate.
Qed.

Lemma len_nonzero (s : string) :
  s <> EmptyString -> (PyStr.len s =? 0) = false.
Proof.
  intros Hne. destruct (PyStr.len s =? 0) eqn:E; [|reflexivity].
  now apply len_zero in E.
Qed.

Lemma lex_compare_refl (a : list Z) : Datetime.lex_compare a a = Eq.
Proof. induction a as [|x a IH]; simpl; [|rewrite Z.compare_refl]; auto. Qed.

Lemma out_of_range_within (start_date end_date : option datetime)
  (sdate : datetime) :
  tzinfo sdate = None ->
  (forall sd, start_date = Some sd -> tzinfo sd = None) ->
  (forall ed, end_date = Some ed -> tzinfo ed = None) ->
  out_of_range start_date end_date sdate
  = Ok (negb (within start_date end_date sdate)).
Proof.
  intros Hs Hsd Hed.
  unfold out_of_range, within, Datetime.lt, Datetime.gt, Datetime.cmp.
  rewrite Hs.
  destruct start_date as [sd|]; [rewrite (Hsd sd eq_refl)|];
    (destruct end_date as [ed|]; [rewrite (Hed ed eq_refl)|]); unfold rbind;
    repeat match goal with
           | |- context [Datetime.lex_compare ?a ?b] =>
               destruct (Datetime.lex_compare a b)
           end; reflexivity.
Qed.

Section DateFilter.

Variable json_loads : string -> result json.

(** a line; its record and the date of the record *)
Variables (l : string) (tweet created_at : json) (sdate : datetime).
Hypothesis not_blank : PyStr.strip l <> EmptyString.
Hypothesis loaded : json_loads (PyStr.strip l) = Ok tweet.
Hypothesis has_date : PyObj.getitem tweet "created_at" = Ok created_at.
Hypothesis parsed : parse_twitter_date created_at true = Ok sdate.

Lemma read_record_ok :
  read_record json_loads (PyStr.strip l) = Ok (tweet, sdate).
Proof.
  unfold read_record. rewrite loaded. cbn [rbind].
  rewrite has_date. cbn [rbind]. now rewrite parsed.
Qed.

Lemma process_line_filtered (start_date end_date : option datetime)
  (st : scan) :
  out_of_range start_date end_date sdate = Ok true ->
  process_line json_loads start_date end_date st l = incr_line_number st.
Proof.
  intros Hout. unfold process_line.
  rewrite (len_nonzero _ not_blank), try_block_is_cases.
  unfold try_block_cases. now rewrite read_record_ok, Hout.
Qed.

Lemma process_line_kept (start_date end_date : option datetime) (st : scan) :
  out_of_range start_date end_date sdate = Ok false ->
  process_line json_loads start_date end_date st l
  = process_line json_loads None None st l.
Proof.
  intros Hout. unfold process_line.
  rewrite (len_nonzero _ not_blank), !try_block_is_cases.
  unfold try_block_cases. now rewrite read_record_ok, Hout.
Qed.

End DateFilter.

(** ** The bounds are midnights *)


(** ** The date parser *)

Lemma split_token (t : string) : token t = true -> PyStr.split t = [t].
Proof.
  induction t as [|c t IH]; simpl; [reflexivity|].
  destruct (Ascii.eqb c " "); simpl; [discriminate|].
  intros Ht. now rewrite (IH Ht).
Qed.

Lemma split_token_app (t rest : string) :
  token t = true ->
  PyStr.split (t ++ String " " rest) = t :: PyStr.split rest.
Proof.
  induction t as [|c t IH]; simpl; [reflexivity|].
  destruct (Ascii.eqb c " "); simpl; [discriminate|].
  intros Ht. now rewrite (IH Ht).
Qed.

Lemma split_join (t : string) (ts : list string) :
  Forall (fun x => token x = true) (t :: ts) ->
  PyStr.split (PyStr.join (t :: ts)) = t :: ts.
Proof.
  revert t. induction ts as [|t' ts IH]; intros t Hall.
  - apply split_token. now inversion Hall.
  - inversion Hall as [|? ? Ht Hrest]; subst.
    change (PyStr.join (t :: t' :: ts))
      with (t ++ String " " (PyStr.join (t' :: ts))).
    now rewrite (split_token_app _ _ Ht), (IH _ Hrest).
Qed.

Lemma int_of_error (s : string) (e : exn) :
  Strptime.int_of s = Raise e -> e = ValueError.
Proof.
  unfold Strptime.int_of. destruct (PyStr.strip s); [congruence|].
  destruct (Strptime.digits_val _ _); congruence.
Qed.

Lemma tz_of_error (z : string) (e : exn) :
  Strptime.tz_of z = Raise e -> e = ValueError.
Proof.
  unfold Strptime.tz_of, rbind.
  repeat match goal with
         | |- context [if ?b then _ else _] => destruct b
         | |- context [Strptime.int_of ?x] =>
             let E := fresh "E" in
             destruct (Strptime.int_of x) eqn:E;
             [|apply int_of_error in E]
         | |- context [match Strptime.slice ?i ?j ?x with _ => _ end] =>
             destruct (Strptime.slice i j x)
         end; congruence.
Qed.

Lemma set_field_error (f : Strptime.directive * string) (acc : datetime)
  (e : exn) :
  Strptime.set_field f acc = Raise e -> e = ValueError.
Proof.
  unfold Strptime.set_field, rbind. destruct f as [d txt]. cbn [fst snd].
  destruct d;
    try match goal with
        | |- context [Strptime.int_of ?x] =>
            destruct (Strptime.int_of x) eqn:E; [|apply int_of_error in E]
        | |- context [Strptime.tz_of ?x] =>
            destruct (Strptime.tz_of x) eqn:E; [|apply tz_of_error in E]
        | |- context [Strptime.index_of ?x ?y] =>
            destruct (Strptime.index_of x y)
        end;
    congruence.
Qed.

Lemma convert_error (found : list (Strptime.directive * string)) :
  forall acc e, Strptime.convert found acc = Raise e -> e = ValueError.
Proof.
  induction found as [|f found IH]; simpl; intros acc e H; [discriminate|].
  destruct (Strptime.set_field f acc) as [acc'|e'] eqn:E; simpl in H.
  - exact (IH _ _ H).
  - apply set_field_error in E. congruence.
Qed.

Lemma strptime_error (data fmt : string) (e : exn) :
  Strptime.strptime data fmt = Raise e -> e = ValueError.
Proof.
  unfold Strptime.strptime.
  destruct (Strptime.compile fmt) as [items|]; [|congruence].
  destruct (Strptime.matches items data) as [|[found rest] ms]; [congruence|].
  destruct rest; [|congruence].
  destruct (Strptime.convert found Strptime.defaults) as [f|e'] eqn:E; simpl.
  - unfold Datetime.new. destruct (_ && _); congruence.
  - apply convert_error in E. congruence.
Qed.

(** the tokens the default mode keeps, and the two modes as readings of a
    layout; a failure of either is a [ValueError] *)
Lemma parse_twitter_date_kept
  (weekday month_ day_ time_ year_ : string) (dropped : list string) :
  Forall (fun t => token t = true)
         ([weekday; month_; day_; time_] ++ dropped ++ [year_]) ->
  parse_twitter_date
    (JStr (PyStr.join ([weekday; month_; day_; time_] ++ dropped ++ [year_])))
    true
  = Strptime.strptime (PyStr.join [weekday; month_; day_; time_; year_])
                      twitter_format
  /\ (forall s,
         parse_twitter_date (JStr s) true
         = Strptime.strptime
             (PyStr.join (firstn 4 (PyStr.split s)
                          ++ [last (PyStr.split s) EmptyString]))
             twitter_format)
  /\ (forall s d, parse_twitter_date (JStr s) true = Ok d -> tzinfo d = None)
  /\ (forall s,
         parse_twitter_date (JStr s) false
         = Strptime.strptime s twitter_format_tz)
  /\ (forall s mode e,
         parse_twitter_date (JStr s) mode = Raise e -> e = ValueError).
Proof.
  intros Hall. split; [|split; [|split; [|split]]].
  - unfold parse_twitter_date.
    change ([weekday; month_; day_; time_] ++ dropped ++ [year_])%list
      with (weekday :: [month_; day_; time_] ++ dropped ++ [year_])%list
      in *.
    rewrite (split_join _ _ Hall). unfold kept_parts.
    cbn [firstn app]. do 2 f_equal.
    change (weekday :: month_ :: day_ :: time_ :: (dropped ++ [year_]))%list
      with ([weekday; month_; day_; time_] ++ dropped ++ [year_])%list.
    now rewrite !app_assoc, last_last.
  - reflexivity.
  - intros s d H. apply (parse_twitter_date_naive _ _ H).
  - reflexivity.
  - intros s [] e H; exact (strptime_error _ _ _ H).
Qed.

(** C6, as stated, fails: a string with three tokens between the time and
    the year is outside the layout of the specification, and the default
    mode reads it without a parse error. *)
Lemma parse_twitter_date_accepts_extra_tokens :
  spec_token_layout "Mon Jan 01 10:00:00 +0000 extra words 2024" = false
  /\ parse_twitter_date
       (JStr "Mon Jan 01 10:00:00 +0000 extra words 2024") true
     = Ok Examples.foo_date.
Proof. split; reflexivity. Qed.

(** ** One line of the scan *)

Lemma count_tags_keys (tags : list json) :
  forall c,
    count_tags tags c = (incr_all (counted_keys tags) c, first_error tags).
Proof.
  induction tags as [|tag tags IH]; intros c; simpl; [reflexivity|].
  destruct (tag_key tag) as [k|e]; [apply IH|reflexivity].
Qed.

Lemma first_error_none (tags : list json) :
  first_error tags = None ->
  List.length (counted_keys tags) = List.length tags.
Proof.
  induction tags as [|tag tags IH]; simpl; [reflexivity|].
  destruct (tag_key tag); [|discriminate]. intros H. simpl. now rewrite IH.
Qed.

Lemma finish_eq (st : scan) :
  finish st =
  mk_scan (counts st) (num_tweets st + 1) (num_failed st) (line_number st)
          (has_hashtags st)
          (log st ++ (if line_number st mod 50000 =? 0
                      then [Processed (line_number st)] else []))%list.
Proof.
  unfold finish. simpl. destruct (_ =? 0); simpl; [reflexivity|].
  now rewrite app_nil_r.
Qed.

(** the loop body as a function of the line: the state after a line is
    given by its outcome and the keys of its counted entries *)
Lemma process_line_after_line
  (json_loads : string -> result json) (start_date end_date : option datetime)
  (st : scan) (l : string) :
  process_line json_loads start_date end_date st l
  = after_line (classify json_loads start_date end_date l)
               (counted_keys (line_tags json_loads start_date end_date l))
               (nonempty (line_tags json_loads start_date end_date l))
               st.
Proof.
  unfold process_line, classify, line_tags.
  destruct (PyStr.len (PyStr.strip l) =? 0); [reflexivity|].
  rewrite try_block_is_cases. unfold try_block_cases.
  destruct (read_record json_loads (PyStr.strip l)) as [[tweet sdate]|e].
  - destruct (out_of_range start_date end_date sdate) as [[]|e].
    + reflexivity.
    + destruct (record_tags tweet) as [[|tag tags]|e].
      * rewrite finish_eq. unfold after_line. simpl.
        now rewrite Z.add_0_r.
      * cbv zeta. rewrite count_tags_keys.
        destruct (first_error (tag :: tags)) as [e|].
        -- reflexivity.
        -- rewrite finish_eq. reflexivity.
      * unfold after_line, handler. simpl. now rewrite Z.add_0_r.
    + unfold after_line, handler. simpl. now rewrite Z.add_0_r.
  - unfold after_line, handler. simpl. now rewrite Z.add_0_r.
Qed.

Lemma incr_all_app (a b : list string) (c : counts_t) :
  incr_all (a ++ b) c = incr_all b (incr_all a c).
Proof. apply fold_left_app. Qed.

Lemma sum_counts_incr_all (keys : list string) :
  forall c, sum_counts (incr_all keys c) = sum_counts c + Z.of_nat (List.length keys).
Proof.
  induction keys as [|k keys IH]; intros c; simpl incr_all;
    [simpl; lia|].
  change (incr_all (k :: keys) c) with (incr_all keys (incr k c)).
  rewrite IH, sum_counts_incr, length_cons. lia.
Qed.

Lemma count_of_incr_all_le (k : string) (keys : list string) :
  forall c, count_of k c <= count_of k (incr_all keys c).
Proof.
  induction keys as [|k' keys IH]; intros c; [apply Z.le_refl|].
  change (incr_all (k' :: keys) c) with (incr_all keys (incr k' c)).
  etransitivity; [apply (count_of_incr_le k' k c)|apply IH].
Qed.

Lemma NoDup_keys_incr_all (keys : list string) :
  forall c, NoDup (map fst c) -> NoDup (map fst (incr_all keys c)).
Proof.
  induction keys as [|k keys IH]; intros c Hnd; [exact Hnd|].
  change (incr_all (k :: keys) c) with (incr_all keys (incr k c)).
  apply IH, NoDup_keys_incr, Hnd.
Qed.

Section Lines.

Variable json_loads : string -> result json.
Variables start_date end_date : option datetime.

(** a line without counted entries: every line that is blank, filtered
    out, or fails before its first hashtag entity *)
Lemma line_tags_outcome (l : string) :
  match classify json_loads start_date end_date l with
  | Blank | Filtered => line_tags json_loads start_date end_date l = []
  | Fails e =>
      line_tags json_loads start_date end_date l = [] \/ first_error (line_tags json_loads start_date end_date l) = Some e
  | Counted => first_error (line_tags json_loads start_date end_date l) = None
  end.
Proof.
  unfold classify, line_tags.
  destruct (PyStr.len (PyStr.strip l) =? 0); [reflexivity|].
  destruct (read_record json_loads (PyStr.strip l)) as [[tweet sdate]|e];
    [|now left].
  destruct (out_of_range start_date end_date sdate) as [[]|e];
    [reflexivity| |now left].
  destruct (record_tags tweet) as [tags|e]; [|now left].
  destruct (first_error tags) eqn:E; [now right|reflexivity].
Qed.

Lemma process_line_counts (st : scan) (l : string) :
  counts (process_line json_loads start_date end_date st l) = incr_all (counted_keys (line_tags json_loads start_date end_date l)) (counts st).
Proof.
  rewrite process_line_after_line.
  pose proof (line_tags_outcome l) as H.
  destruct (classify json_loads start_date end_date l); try reflexivity;
    now rewrite H.
Qed.

Lemma scan_lines_counts (lines : list string) :
  forall st,
    counts (scan_lines json_loads start_date end_date st lines)
    = incr_all (file_keys json_loads start_date end_date lines) (counts st).
Proof.
  induction lines as [|l lines IH]; intros st; [reflexivity|].
  simpl scan_lines. rewrite IH, process_line_counts. unfold file_keys. simpl flat_map.
  now rewrite incr_all_app.
Qed.

(** the keys of the mapping are distinct: its length is the number of
    distinct hashtags *)
Lemma scan_lines_keys_distinct (tweets_path : string) (lines : list string) :
  NoDup (map fst (counts (scan_lines json_loads start_date end_date
                            (init tweets_path) lines))).
Proof.
  rewrite scan_lines_counts. apply NoDup_keys_incr_all. constructor.
Qed.

(** what the [try] block returns, from the outcome of the line *)
Lemma try_block_outcome (st : scan) (l : string) :
  PyStr.strip l <> EmptyString ->
  fst (try_block json_loads start_date end_date (PyStr.strip l) st)
  = match classify json_loads start_date end_date l with
    | Fails e => Thrown e
    | Filtered => Continue
    | _ => Next tt
    end.
Proof.
  intros Hne. rewrite try_block_is_cases.
  unfold classify, try_block_cases.
  rewrite (len_nonzero _ Hne).
  destruct (read_record json_loads (PyStr.strip l)) as [[tweet sdate]|e];
    [|reflexivity].
  destruct (out_of_range start_date end_date sdate) as [[]|e];
    try reflexivity.
  destruct (record_tags tweet) as [[|tag tags]|e]; try reflexivity.
  cbv zeta. rewrite count_tags_keys.
  destruct (first_error (tag :: tags)); reflexivity.
Qed.

End Lines.

(** ** Lines that fail *)

(** C4, as the program has it.  When the [try] block of a line raises - on
    malformed JSON, on a missing field, on a date that cannot be parsed -
    the counter of failures is incremented, the counter of lines advances,
    the counter of processed tweets stays, the failure is logged with the
    number of the line, and the scan goes on with the next line.  The
    counts are unchanged when the failure comes before the hashtag
    entities (in particular when the record or its date cannot be read);
    when it comes at a hashtag entity, the increments made for the entities
    before it are kept, and no count ever decreases. *)
Theorem failing_line
  (json_loads : string -> result json) (start_date end_date : option datetime)
  (st : scan) (l : string) (e : exn) :
  PyStr.strip l <> EmptyString ->
  fst (try_block json_loads start_date end_date (PyStr.strip l) st) = Thrown e ->
  let st' := process_line json_loads start_date end_date st l in
  let tags := line_tags json_loads start_date end_date l in
  num_failed st' = num_failed st + 1
  /\ line_number st' = line_number st + 1
  /\ num_tweets st' = num_tweets st
  /\ log st' = (log st ++ [Failed (line_number st + 1) e])%list
  /\ (forall rest,
         scan_lines json_loads start_date end_date st (l :: rest)
         = scan_lines json_loads start_date end_date st' rest)
  /\ counts st' = incr_all (counted_keys tags) (counts st)
  /\ (first_error tags = None -> counts st' = counts st)
  /\ (forall e', read_record json_loads (PyStr.strip l) = Raise e' ->
                 counts st' = counts st)
  /\ (forall k, count_of k (counts st) <= count_of k (counts st')).
Proof.
  intros Hne Hraise st' tags.
  rewrite (try_block_outcome _ _ _ _ _ Hne) in Hraise.
  assert (Hcounts : counts st' = incr_all (counted_keys tags) (counts st))
    by apply process_line_counts.
  pose proof (line_tags_outcome json_loads start_date end_date l) as Htags.
  assert (Hst : st' = after_line (classify json_loads start_date end_date l)
                        (counted_keys tags) (nonempty tags) st)
    by apply process_line_after_line.
  destruct (classify json_loads start_date end_date l) as [|e0| |];
    try discriminate Hraise.
  injection Hraise as ->. fold tags in Htags.
  repeat split; try (rewrite Hst; reflexivity).
  - intros Hnone. destruct Htags as [H|H]; [|congruence].
    now rewrite Hcounts, H.
  - intros e' Hread. rewrite Hcounts. unfold tags, line_tags.
    now rewrite (len_nonzero _ Hne), Hread.
  - intros k. rewrite Hcounts. apply count_of_incr_all_le.
Qed.

Lemma failing_line_witness :
  let st' := process_line JsonFragment.json_loads None None
               (init "f") Examples.garbage_line in
  num_failed st' = 1 /\ line_number st' = 1 /\ counts st' = [].
Proof.
  destruct (failing_line JsonFragment.json_loads None None (init "f")
              Examples.garbage_line ValueError)
    as (Hf & Hl & _ & _ & _ & _ & Hc & _).
  - vm_compute. discriminate.
  - reflexivity.
  - split; [exact Hf|split; [exact Hl|]]. apply Hc. reflexivity.
Defined.

(** C4, as stated, fails: the second hashtag entity of this record has no
    text; the line is counted as a failure after the count of the first
    entity was incremented. *)
Lemma failing_line_changes_counts :
  let st := init "f" in
  let st' := process_line JsonFragment.json_loads None None st
               Examples.partial_line in
  JsonFragment.json_loads (PyStr.strip Examples.partial_line)
  = Ok Examples.partial_tweet
  /\ num_failed st' = num_failed st + 1
  /\ log st' = [Loading "f"; Failed 1 (KeyError "text")]
  /\ counts st = []
  /\ counts st' = [("#abc", 1)].
Proof. repeat split. Qed.

(** ** The sum of the counts *)

(** C5, as the program has it.  After the scan of a file the sum of the
    values of the mapping is the number of hashtag entries that were
    counted: for each record that the date range does not filter out, its
    entries up to the first one that fails (an entry without a text).  It
    is the total number of hashtag entries of those records when no entry
    fails. *)
Theorem sum_of_counts
  (json_loads : string -> result json) (start_date end_date : option datetime)
  (tweets_path : string) (lines : list string) :
  let st := scan_lines json_loads start_date end_date (init tweets_path) lines in
  sum_counts (counts st)
  = Z.of_nat (List.length (file_keys json_loads start_date end_date lines))
  /\ ((forall l, In l lines ->
         first_error (line_tags json_loads start_date end_date l) = None) ->
      sum_counts (counts st)
      = total_entries json_loads start_date end_date lines).
Proof.
  intros st.
  assert (Hsum : sum_counts (counts st)
                 = Z.of_nat (List.length
                               (file_keys json_loads start_date end_date lines))).
  { unfold st. rewrite scan_lines_counts, sum_counts_incr_all. reflexivity. }
  split; [exact Hsum|].
  intros Hgood. rewrite Hsum. unfold total_entries, file_keys. f_equal.
  clear st Hsum. induction lines as [|l lines IH]; [reflexivity|].
  simpl flat_map. rewrite !length_app, IH.
  - f_equal. apply first_error_none, Hgood. now left.
  - intros l' Hl'. apply Hgood. now right.
Qed.

(** C5, as stated, fails: this file has one record, inside any date range,
    with two hashtag entries; the second one fails, the record is not
    counted as processed, and the sum of the counts is 1 - neither the 2
    entries of the record nor the 0 entries of the processed records. *)
Lemma sum_of_counts_counterexample :
  let st := scan_lines JsonFragment.json_loads None None (init "f")
              [Examples.partial_line] in
  sum_counts (counts st) = 1
  /\ total_entries JsonFragment.json_loads None None [Examples.partial_line] = 2
  /\ num_tweets st = 0
  /\ sum_counts (counts st)
     <> total_entries JsonFragment.json_loads None None [Examples.partial_line].
Proof. repeat split. discriminate. Qed.

(** ** Progress notices *)

(** C7, as the program has it.  At a non-blank line that brings the counter
    of lines to a multiple of 50,000 the progress notice, with the number
    of lines, is written when the [try] block runs to its end - the record
    is counted as processed.  A line that the date range filters out writes
    nothing, and a line that fails writes only its failure. *)
Theorem progress_notice
  (json_loads : string -> result json) (start_date end_date : option datetime)
  (st : scan) (l : string) :
  PyStr.strip l <> EmptyString ->
  (line_number st + 1) mod 50000 = 0 ->
  let st' := process_line json_loads start_date end_date st l in
  line_number st' = line_number st + 1
  /\ match fst (try_block json_loads start_date end_date (PyStr.strip l) st) with
     | Next _ =>
         num_tweets st' = num_tweets st + 1
         /\ log st' = (log st ++ [Processed (line_number st')])%list
     | Continue =>
         num_tweets st' = num_tweets st /\ log st' = log st
     | Thrown e =>
         num_tweets st' = num_tweets st
         /\ log st' = (log st ++ [Failed (line_number st') e])%list
     end.
Proof.
  intros Hne Hmod st'.
  rewrite (try_block_outcome _ _ _ _ _ Hne).
  assert (Hst : st' = after_line (classify json_loads start_date end_date l)
                        (counted_keys (line_tags json_loads start_date end_date l))
                        (nonempty (line_tags json_loads start_date end_date l))
                        st)
    by apply process_line_after_line.
  assert (Hblank : classify json_loads start_date end_date l <> Blank).
  { unfold classify. rewrite (len_nonzero _ Hne).
    repeat match goal with
           | |- context [match ?x with _ => _ end] => destruct x
           end; discriminate. }
  destruct (classify json_loads start_date end_date l) as [|e| |];
    [contradiction| | |]; rewrite Hst; unfold after_line; simpl;
    rewrite ?Hmod; simpl; repeat split.
Qed.

Lemma progress_notice_witness :
  let st := mk_scan [] 49999 0 49999 0 [] in
  let st' := process_line JsonFragment.json_loads None None st
               Examples.foo_line in
  line_number st' = 50000 /\ log st' = [Processed 50000].
Proof.
  destruct (progress_notice JsonFragment.json_loads None None
              (mk_scan [] 49999 0 49999 0 []) Examples.foo_line)
    as (Hl & Hnotice).
  - vm_compute. discriminate.
  - reflexivity.
  - split; [exact Hl|]. exact (proj2 Hnotice).
Defined.

Lemma garbage_lines (n : nat) :
  forall st,
    let st' := scan_lines JsonFragment.json_loads None None st
                 (repeat Examples.garbage_line n) in
    line_number st' = line_number st + Z.of_nat n
    /\ ((forall m, ~ In (Processed m) (log st)) ->
        forall m, ~ In (Processed m) (log st')).
Proof.
  induction n as [|n IH]; intros st.
  - simpl. split; [lia|auto].
  - cbn [repeat scan_lines fold_left].
    change (fold_left (process_line JsonFragment.json_loads None None)
              (repeat Examples.garbage_line n) ?s)
      with (scan_lines JsonFragment.json_loads None None s
              (repeat Examples.garbage_line n)).
    destruct (IH (process_line JsonFragment.json_loads None None st
                    Examples.garbage_line)) as (Hl & Hlog).
    rewrite process_line_after_line in Hl, Hlog |- *.
    change (classify JsonFragment.json_loads None None Examples.garbage_line)
      with (Fails ValueError) in *.
    change (line_tags JsonFragment.json_loads None None Examples.garbage_line)
      with (@nil json) in *.
    split.
    + rewrite Hl. simpl. lia.
    + intros Hno. apply Hlog. simpl. intros m Hin.
      apply in_app_or in Hin as [Hin|[Hin|[]]]; [exact (Hno m Hin)|discriminate].
Qed.

(** C7, as stated, fails: in a file of 50,000 lines that are not JSON the
    counter of lines reaches 50,000 at the last line, a non-blank one, and
    no progress notice is written. *)
Lemma progress_notice_missing :
  let st := scan_lines JsonFragment.json_loads None None (init "f")
              (repeat Examples.garbage_line (Z.to_nat 50000)) in
  PyStr.strip Examples.garbage_line <> EmptyString
  /\ line_number st = 50000
  /\ line_number st mod 50000 = 0
  /\ forall m, ~ In (Processed m) (log st).
Proof.
  destruct (garbage_lines (Z.to_nat 50000) (init "f")) as (Hl & Hlog).
  cbv zeta. rewrite Hl, Z2Nat.id by lia.
  split; [vm_compute; discriminate|]. split; [reflexivity|].
  split; [reflexivity|]. apply Hlog.
  simpl. intros m [Hin|[]]. discriminate.
Qed.

(** ** The report *)

Lemma insert_desc_perm (p : string * Z) (l : list (string * Z)) :
  Permutation (insert_desc p l) (p :: l).
Proof.
  induction l as [|q l IH]; simpl; [reflexivity|].
  destruct (snd q <=? snd p); [reflexivity|].
  rewrite IH. apply perm_swap.
Qed.

Lemma sorted_desc_perm (l : list (string * Z)) :
  Permutation (sorted_desc l) l.
Proof.
  induction l as [|p l IH]; simpl; [reflexivity|].
  rewrite insert_desc_perm. now constructor.
Qed.

Lemma insert_desc_sorted (p : string * Z) (l : list (string * Z)) :
  StronglySorted (fun a b => snd b <= snd a) l ->
  StronglySorted (fun a b => snd b <= snd a) (insert_desc p l).
Proof.
  induction l as [|q l IH]; simpl; intros Hs.
  - repeat constructor.
  - inversion Hs as [|? ? Hl Hq]; subst.
    destruct (Z.leb_spec (snd q) (snd p)) as [Hle|Hlt].
    + constructor; [exact Hs|]. constructor; [exact Hle|].
      apply Forall_forall. intros x Hx.
      rewrite Forall_forall in Hq. specialize (Hq x Hx). lia.
    + constructor; [apply IH, Hl|].
      apply Forall_forall. intros x Hx.
      apply (Permutation_in _ (insert_desc_perm p l)) in Hx.
      destruct Hx as [<-|Hx]; [lia|].
      rewrite Forall_forall in Hq. exact (Hq x Hx).
Qed.

Lemma sorted_desc_sorted (l : list (string * Z)) :
  StronglySorted (fun a b => snd b <= snd a) (sorted_desc l).
Proof.
  induction l as [|p l IH]; simpl; [constructor|].
  apply insert_desc_sorted, IH.
Qed.

Lemma display_rows (top : Z) (sx : list (string * Z)) :
  forall i tab,
    0 <= i ->
    display top i sx tab
    = mk_table (field_names tab) (align tab)
               (rows tab ++ firstn (Z.to_nat (top + 1 - i)) sx)%list.
Proof.
  induction sx as [|pair_ sx IH]; intros i tab Hi; simpl.
  - rewrite firstn_nil, app_nil_r. now destruct tab.
  - destruct (Z.gtb_spec i top) as [Hgt|Hle].
    + replace (Z.to_nat (top + 1 - i)) with O by lia.
      simpl. rewrite app_nil_r. now destruct tab.
    + rewrite IH by lia. simpl.
      replace (Z.to_nat (top + 1 - i)) with (S (Z.to_nat (top + 1 - (i + 1))))
        by lia.
      simpl. now rewrite <- app_assoc.
Qed.

(** C1, as the program has it.  The report sorts the pairs of the mapping
    by decreasing count and adds them to the table in a loop that stops at
    the first 0-based index [i] with [i > top].  The table therefore holds
    the first [top + 1] pairs of the sorted list: [min (D, max (top + 1, 0))]
    rows for [D] distinct hashtags - [min (D, top + 1)], one row more than
    [top] when there are that many, for every [top] from -1 on, and no row
    for a smaller [top]. *)
Theorem top_table_rows
  (json_loads : string -> result json) (start_date end_date : option datetime)
  (top : Z) (tweets_path : string) (lines : list string) :
  let st := scan_lines json_loads start_date end_date (init tweets_path) lines in
  let sx := sorted_desc (counts st) in
  let D := Z.of_nat (List.length (counts st)) in
  exists tab,
    process_file json_loads top start_date end_date (tweets_path, lines)
    = (log st ++ [Found (has_hashtags st) (num_tweets st) D;
                  Top (Z.min D top); Tab tab])%list
    /\ NoDup (map fst (counts st))
    /\ Permutation sx (counts st)
    /\ StronglySorted (fun a b => snd b <= snd a) sx
    /\ field_names tab = ["Hashtag"; "Count"]
    /\ rows tab = firstn (Z.to_nat (top + 1)) sx
    /\ Z.of_nat (List.length (rows tab)) = Z.min D (Z.max (top + 1) 0)
    /\ (-1 <= top -> Z.of_nat (List.length (rows tab)) = Z.min D (top + 1))
    /\ (top < -1 -> rows tab = []).
Proof.
  intros st sx D.
  exists (display top 0 sx empty_table).
  assert (Hrows : rows (display top 0 sx empty_table)
                  = firstn (Z.to_nat (top + 1)) sx).
  { rewrite display_rows by lia. simpl. now rewrite Z.sub_0_r. }
  assert (Hlen : List.length sx = List.length (counts st))
    by apply Permutation_length, sorted_desc_perm.
  split; [|split; [|split; [|split; [|split; [|split; [|split; [|split]]]]]]].
  - unfold process_file, report. cbn [fst snd]. fold st. fold sx.
    now rewrite Hlen.
  - apply scan_lines_keys_distinct.
  - apply sorted_desc_perm.
  - apply sorted_desc_sorted.
  - rewrite display_rows by lia. reflexivity.
  - exact Hrows.
  - rewrite Hrows, length_firstn, Hlen. unfold D. lia.
  - intros Htop. rewrite Hrows, length_firstn, Hlen. unfold D. lia.
  - intros Htop. rewrite Hrows.
    replace (Z.to_nat (top + 1)) with O by lia. reflexivity.
Qed.

(** C1, as stated, fails for a [--top] below -1: with [--top=-2] the loop
    stops at its first index and the table of a file with one hashtag has
    no row, where [min (D, N + 1)] is -1. *)
Lemma top_table_negative_top :
  process_file JsonFragment.json_loads (-2) None None
    ("f", [Examples.foo_line])
  = [Loading "f"; Found 1 1 1; Top (-2); Tab empty_table]
  /\ rows empty_table = []
  /\ Z.of_nat (List.length (rows empty_table)) <> Z.min 1 (-2 + 1).
Proof. repeat split. discriminate. Qed.

(** ** The examples of the specification *)

(** the record with the hashtag [Foo] gives the counts [{"#foo": 1}] *)
Example foo_counts :
  counts (scan_lines JsonFragment.json_loads None None (init "f")
            [Examples.foo_line])
  = [("#foo", 1)].
Proof. reflexivity. Qed.

(** with the counts [{"#a":5, "#b":3, "#c":3, "#d":1}] and [--top 2] the
    table has three rows *)
Example top_two :
  rows (top_table 2 [("#a", 5); ("#b", 3); ("#c", 3); ("#d", 1)])
  = [("#a", 5); ("#b", 3); ("#c", 3)].
Proof. reflexivity. Qed.

(** the strict mode keeps the offset of the time zone: one hour, in
    microseconds *)
Example strict_mode_offset :
  parse_twitter_date (JStr "Mon Jan 01 10:00:00 +0100 2024") false
  = Ok (mk_datetime 2024 1 1 10 0 0 0 (Some 3600000000)).
Proof. reflexivity. Qed.

(** a file with a record, blank lines, a failing record and a line that is
    not JSON, and the log of the program for it *)
Example main_log :
  main JsonFragment.json_loads default_options
    [("f", [Examples.foo_line; Examples.blank_line; Examples.partial_line;
            Examples.garbage_line; Examples.foo_line])]
  = Ok [Loading "f"; Failed 2 (KeyError "text"); Failed 3 ValueError;
        Found 3 2 2; Top 2;
        Tab (mk_table ["Hashtag"; "Count"] [("Hashtag", "l"); ("Count", "r")]
                      [("#foo", 2); ("#abc", 1)])].
Proof. reflexivity. Qed.

(** * Further properties of the scan *)

(** ** The counters of a file *)

Lemma classify_blank
  (json_loads : string -> result json) (start_date end_date : option datetime)
  (l : string) :
  classify json_loads start_date end_date l = Blank <-> nonblank l = false.
Proof.
  unfold classify, nonblank.
  destruct (PyStr.len (PyStr.strip l) =? 0); simpl; [tauto|].
  split; [|discriminate].
  repeat match goal with
         | |- context [match ?x with _ => _ end] => destruct x
         end; discriminate.
Qed.

Lemma classify_unbounded (json_loads : string -> result json) (l : string) :
  classify json_loads None None l <> Filtered.
Proof.
  unfold classify, out_of_range. simpl.
  repeat match goal with
         | |- context [match ?x with _ => _ end] => destruct x
         end; discriminate.
Qed.

Section Counters.

Variable json_loads : string -> result json.
Variables start_date end_date : option datetime.

(** what one line does to the four counters *)
Lemma process_line_counters (st : scan) (l : string) :
  let st' := process_line json_loads start_date end_date st l in
  let d := if nonblank l then 1 else 0 in
  line_number st' = line_number st + d
  /\ num_tweets st <= num_tweets st'
  /\ num_failed st <= num_failed st'
  /\ has_hashtags st <= has_hashtags st'
  /\ (num_tweets st' - num_tweets st) + (num_failed st' - num_failed st) <= d
  /\ has_hashtags st' - has_hashtags st
     <= (num_tweets st' - num_tweets st) + (num_failed st' - num_failed st)
  /\ (num_failed st' = num_failed st ->
      has_hashtags st' - has_hashtags st <= num_tweets st' - num_tweets st)
  /\ (start_date = None -> end_date = None ->
      (num_tweets st' - num_tweets st) + (num_failed st' - num_failed st) = d).
Proof.
  intros st' d. unfold st', d. rewrite process_line_after_line.
  pose proof (classify_blank json_loads start_date end_date l) as Hb.
  pose proof (line_tags_outcome json_loads start_date end_date l) as Ht.
  assert (Hu : start_date = None -> end_date = None ->
               classify json_loads start_date end_date l <> Filtered)
    by (intros -> ->; apply classify_unbounded).
  destruct (nonblank l).
  - destruct (classify json_loads start_date end_date l) as [|e| |].
    + destruct Hb as [Hb _]. discriminate (Hb eq_refl).
    + unfold after_line; simpl.
      destruct (nonempty _); repeat split; intros; lia.
    + rewrite Ht. unfold after_line; simpl.
      repeat split; intros; try lia. exfalso. now apply Hu.
    + unfold after_line; simpl.
      destruct (nonempty _); repeat split; intros; lia.
  - destruct Hb as [_ Hb]. rewrite (Hb eq_refl).
    unfold after_line; simpl. repeat split; intros; lia.
Qed.

End Counters.

Lemma count_nonblank_cons (l : string) (lines : list string) :
  count_nonblank (l :: lines)
  = (if nonblank l then 1 else 0) + count_nonblank lines.
Proof.
  unfold count_nonblank. cbn [filter].
  destruct (nonblank l); cbn [List.length]; lia.
Qed.

Lemma scan_lines_counters
  (json_loads : string -> result json) (start_date end_date : option datetime)
  (lines : list string) :
  forall st,
    let st' := scan_lines json_loads start_date end_date st lines in
    line_number st' = line_number st + count_nonblank lines
    /\ num_tweets st <= num_tweets st'
    /\ num_failed st <= num_failed st'
    /\ has_hashtags st <= has_hashtags st'
    /\ (num_tweets st' - num_tweets st) + (num_failed st' - num_failed st)
       <= count_nonblank lines
    /\ has_hashtags st' - has_hashtags st
       <= (num_tweets st' - num_tweets st) + (num_failed st' - num_failed st)
    /\ (num_failed st' = num_failed st ->
        has_hashtags st' - has_hashtags st <= num_tweets st' - num_tweets st)
    /\ (start_date = None -> end_date = None ->
        (num_tweets st' - num_tweets st) + (num_failed st' - num_failed st)
        = count_nonblank lines).
Proof.
  induction lines as [|l lines IH]; intros st.
  - simpl. unfold count_nonblank. simpl. repeat split; intros; lia.
  - cbn [scan_lines fold_left]. rewrite count_nonblank_cons.
    pose proof (process_line_counters json_loads start_date end_date st l)
      as H1.
    pose proof (IH (process_line json_loads start_date end_date st l)) as H2.
    cbv zeta in H1, H2. unfold scan_lines in H2.
    destruct H1 as (A1 & A2 & A3 & A4 & A5 & A6 & A7 & A8).
    destruct H2 as (B1 & B2 & B3 & B4 & B5 & B6 & B7 & B8).
    repeat split; try lia.
    intros Hs He. specialize (A8 Hs He). specialize (B8 Hs He). lia.
Qed.

(** X1. The counters after the scan of a file.  The counter of lines is
    the number of non-blank lines of the file.  The tweets processed and
    the failures together are at most that many, and exactly that many
    when no date bound is configured (every non-blank line is then either
    processed or a failure).  The tweets with hashtags are at most the
    tweets processed plus the failures, and at most the tweets processed
    when no line failed. *)
Theorem scan_counters
  (json_loads : string -> result json) (start_date end_date : option datetime)
  (tweets_path : string) (lines : list string) :
  let st := scan_lines json_loads start_date end_date (init tweets_path) lines in
  line_number st = count_nonblank lines
  /\ 0 <= num_tweets st /\ 0 <= num_failed st /\ 0 <= has_hashtags st
  /\ num_tweets st + num_failed st <= line_number st
  /\ has_hashtags st <= num_tweets st + num_failed st
  /\ (num_failed st = 0 -> has_hashtags st <= num_tweets st)
  /\ (start_date = None -> end_date = None ->
      num_tweets st + num_failed st = line_number st).
Proof.
  pose proof (scan_lines_counters json_loads start_date end_date lines
                (init tweets_path)) as H.
  cbv zeta in *. simpl in H.
  destruct H as (H1 & H2 & H3 & H4 & H5 & H6 & H7 & H8).
  repeat split; try lia.
  intros Hs He. specialize (H8 Hs He). lia.
Qed.

(** ** Blank lines *)

(** X2. Blank lines can be removed from a file: the scan of a file and the
    scan of its non-blank lines end in the same state, so the two files
    have the same report. *)
Theorem blank_lines_removable
  (json_loads : string -> result json) (top : Z)
  (start_date end_date : option datetime)
  (tweets_path : string) (lines : list string) :
  (forall st,
      scan_lines json_loads start_date end_date st lines
      = scan_lines json_loads start_date end_date st (filter nonblank lines))
  /\ process_file json_loads top start_date end_date (tweets_path, lines)
     = process_file json_loads top start_date end_date
         (tweets_path, filter nonblank lines).
Proof.
  assert (H : forall st,
             scan_lines json_loads start_date end_date st lines
             = scan_lines json_loads start_date end_date st
                 (filter nonblank lines)).
  { unfold scan_lines.
    induction lines as [|l lines IH]; intros st; [reflexivity|].
    cbn [fold_left filter]. destruct (nonblank l) eqn:E.
    - cbn [fold_left]. apply IH.
    - unfold nonblank in E. apply negb_false_iff in E.
      unfold process_line at 2. rewrite E. apply IH. }
  split; [exact H|]. unfold process_file. cbn [fst snd]. now rewrite H.
Qed.

(** ** The log of a file *)

Lemma process_line_log
  (json_loads : string -> result json) (start_date end_date : option datetime)
  (st : scan) (l : string) :
  let st' := process_line json_loads start_date end_date st l in
  let n := line_number st + 1 in
  (nonblank l = false /\ st' = st)
  \/ (nonblank l = true /\ line_number st' = n
      /\ ((log st' = log st /\ num_failed st' = num_failed st)
          \/ (exists e, log st' = (log st ++ [Failed n e])%list
                        /\ num_failed st' = num_failed st + 1)
          \/ (log st' = (log st ++ [Processed n])%list
              /\ n mod 50000 = 0 /\ num_failed st' = num_failed st))).
Proof.
  intros st' n. unfold st', n. rewrite process_line_after_line.
  pose proof (classify_blank json_loads start_date end_date l) as Hb.
  destruct (nonblank l).
  - right. split; [reflexivity|].
    destruct (classify json_loads start_date end_date l) as [|e| |].
    + destruct Hb as [Hb _]. discriminate (Hb eq_refl).
    + split; [reflexivity|]. right. left. exists e. split; reflexivity.
    + split; [reflexivity|]. left. split; reflexivity.
    + split; [reflexivity|]. unfold after_line. cbn [log num_failed].
      destruct (Z.eqb_spec ((line_number st + 1) mod 50000) 0) as [Hm|Hm].
      * right. right. repeat split. exact Hm.
      * left. split; [apply app_nil_r|reflexivity].
  - left. split; [reflexivity|]. destruct Hb as [_ Hb]. now rewrite (Hb eq_refl).
Qed.

Lemma scan_lines_log
  (json_loads : string -> result json) (start_date end_date : option datetime)
  (lines : list string) :
  forall st,
    let st' := scan_lines json_loads start_date end_date st lines in
    exists entries,
      log st' = (log st ++ entries)%list
      /\ num_failed st'
         = num_failed st + Z.of_nat (List.length (filter is_failure entries))
      /\ Forall (fun entry =>
                   match entry with
                   | Failed n _ => line_number st < n <= line_number st'
                   | Processed n =>
                       line_number st < n <= line_number st'
                       /\ n mod 50000 = 0
                   | _ => False
                   end) entries.
Proof.
  induction lines as [|l lines IH]; intros st.
  - exists []. simpl. rewrite app_nil_r. repeat split; [lia|constructor].
  - cbn [scan_lines fold_left].
    pose proof (process_line_log json_loads start_date end_date st l) as H1.
    pose proof (process_line_counters json_loads start_date end_date st l)
      as (C1 & _).
    pose proof (scan_lines_counters json_loads start_date end_date lines
                  (process_line json_loads start_date end_date st l))
      as (D1 & _).
    destruct (IH (process_line json_loads start_date end_date st l))
      as (entries & Hlog & Hfail & Hall).
    cbv zeta in H1. unfold scan_lines in *.
    assert (Hnn : 0 <= count_nonblank lines) by (unfold count_nonblank; lia).
    assert (Hall' :
              Forall (fun entry =>
                        match entry with
                        | Failed n _ =>
                            line_number st < n
                            <= line_number
                                 (fold_left
                                    (process_line json_loads start_date end_date)
                                    lines
                                    (process_line json_loads start_date
                                       end_date st l))
                        | Processed n =>
                            line_number st < n
                            <= line_number
                                 (fold_left
                                    (process_line json_loads start_date end_date)
                                    lines
                                    (process_line json_loads start_date
                                       end_date st l))
                            /\ n mod 50000 = 0
                        | _ => False
                        end) entries).
    { eapply Forall_impl; [|exact Hall]. intros [ | | | | | ]; simpl; intros;
        destruct (nonblank l); lia. }
    destruct H1 as [[_ Heq]|(Hnb & Hln & [[Hl Hf]|[(e & Hl & Hf)|(Hl & Hm & Hf)]])].
    + rewrite Heq in *. exists entries. repeat split; assumption.
    + exists entries. rewrite Hlog, Hfail, Hl, Hf. repeat split. exact Hall'.
    + exists (Failed (line_number st + 1) e :: entries).
      rewrite Hlog, Hfail, Hl, Hf, <- app_assoc.
      split; [reflexivity|]. split; [cbn [filter is_failure List.length]; lia|].
      constructor; [|exact Hall']. rewrite D1, Hln. lia.
    + exists (Processed (line_number st + 1) :: entries).
      rewrite Hlog, Hfail, Hl, Hf, <- app_assoc.
      split; [reflexivity|]. split; [reflexivity|].
      constructor; [|exact Hall']. rewrite D1, Hln. split; [lia|exact Hm].
Qed.

(** X3. The log of the scan of a file starts with the notice of the file;
    after it come only failures and progress notices.  The counter of
    failures is the number of failures logged; every failure carries a
    line number between 1 and the counter of lines, every progress notice
    a multiple of 50,000 in that range. *)
Theorem scan_log
  (json_loads : string -> result json) (start_date end_date : option datetime)
  (tweets_path : string) (lines : list string) :
  let st := scan_lines json_loads start_date end_date (init tweets_path) lines in
  exists entries,
    log st = Loading tweets_path :: entries
    /\ num_failed st = Z.of_nat (List.length (filter is_failure entries))
    /\ Forall (fun entry =>
                 match entry with
                 | Failed n _ => 1 <= n <= line_number st
                 | Processed n => 1 <= n <= line_number st /\ n mod 50000 = 0
                 | _ => False
                 end) entries.
Proof.
  destruct (scan_lines_log json_loads start_date end_date lines
              (init tweets_path)) as (entries & Hlog & Hfail & Hall).
  exists entries. split; [exact Hlog|]. split; [exact Hfail|].
  eapply Forall_impl; [|exact Hall].
  intros [ | | | | | ]; simpl; intros; lia.
Qed.

(** X4. The line number of a failure counts the non-blank lines only: when
    a line logs a failure, the number in the message is the number of
    non-blank lines up to and including that line, whatever the number of
    blank lines before it. *)
Theorem failure_line_number
  (json_loads : string -> result json) (start_date end_date : option datetime)
  (tweets_path : string) (before : list string) (l : string)
  (n : Z) (e : exn) :
  let st := scan_lines json_loads start_date end_date (init tweets_path)
              before in
  let st' := process_line json_loads start_date end_date st l in
  log st' = (log st ++ [Failed n e])%list ->
  nonblank l = true /\ n = count_nonblank (before ++ [l]).
Proof.
  intros st st' Hlog.
  pose proof (process_line_log json_loads start_date end_date st l) as H1.
  pose proof (scan_lines_counters json_loads start_date end_date before
                (init tweets_path)) as (D1 & _).
  cbv zeta in H1. fold st in D1. fold st' in H1. simpl in D1.
  assert (Hcount : count_nonblank (before ++ [l])
                   = count_nonblank before + (if nonblank l then 1 else 0)).
  { unfold count_nonblank. rewrite filter_app, length_app. cbn [filter].
    destruct (nonblank l); cbn [List.length]; lia. }
  destruct H1 as [[_ Heq]|(Hnb & Hln & [[Hl Hf]|[(e' & Hl & Hf)|(Hl & Hm & Hf)]])].
  - rewrite Heq in Hlog. rewrite <- (app_nil_r (log st)) in Hlog at 1.
    apply app_inv_head in Hlog. discriminate.
  - rewrite Hl in Hlog. rewrite <- (app_nil_r (log st)) in Hlog at 1.
    apply app_inv_head in Hlog. discriminate.
  - rewrite Hl in Hlog. apply app_inv_head in Hlog.
    injection Hlog as Hn He. split; [exact Hnb|].
    rewrite Hcount, Hnb. lia.
  - rewrite Hl in Hlog. apply app_inv_head in Hlog. discriminate.
Qed.

Lemma failure_line_number_witness :
  log (scan_lines JsonFragment.json_loads None None (init "f")
         [Examples.blank_line; Examples.blank_line; Examples.garbage_line])
  = [Loading "f"; Failed 1 ValueError]
  /\ count_nonblank
       [Examples.blank_line; Examples.blank_line; Examples.garbage_line] = 1.
Proof.
  destruct (failure_line_number JsonFragment.json_loads None None "f"
              [Examples.blank_line; Examples.blank_line]
              Examples.garbage_line 1 ValueError eq_refl) as (_ & Hn).
  split; [reflexivity|]. symmetry. exact Hn.
Defined.

(** ** The mapping after a file *)

Lemma count_of_incr_all (k : string) (keys : list string) :
  forall c,
    count_of k (incr_all keys c)
    = count_of k c + Z.of_nat (count_occ string_dec keys k).
Proof.
  induction keys as [|k' keys IH]; intros c; [simpl; lia|].
  change (incr_all (k' :: keys) c) with (incr_all keys (incr k' c)).
  rewrite IH. cbn [count_occ].
  destruct (string_dec k' k) as [->|Hne].
  - rewrite count_of_incr_same. lia.
  - rewrite count_of_incr_other by congruence. lia.
Qed.

Lemma keys_incr_all (keys : list string) :
  forall c, map fst (incr_all keys c) = fold_left add_key keys (map fst c).
Proof.
  induction keys as [|k keys IH]; intros c; [reflexivity|].
  change (incr_all (k :: keys) c) with (incr_all keys (incr k c)).
  rewrite IH, keys_incr. reflexivity.
Qed.

(** X5. The mapping after a file counts exactly: the count of every key is
    the number of counted hashtag entries with that key (0 for an absent
    key), and the keys are in the order in which they were first seen. *)
Theorem counts_exact
  (json_loads : string -> result json) (start_date end_date : option datetime)
  (tweets_path : string) (lines : list string) :
  let st := scan_lines json_loads start_date end_date (init tweets_path) lines in
  let keys := file_keys json_loads start_date end_date lines in
  (forall k, count_of k (counts st) = Z.of_nat (count_occ string_dec keys k))
  /\ map fst (counts st) = first_seen keys.
Proof.
  intros st keys. unfold st. rewrite scan_lines_counts. fold keys. split.
  - intros k. rewrite count_of_incr_all. reflexivity.
  - rewrite keys_incr_all. reflexivity.
Qed.

Lemma rstrip_cons (c : ascii) (s : string) :
  PyStr.rstrip (String c s)
  = match PyStr.rstrip s with
    | EmptyString =>
        if PyStr.isspace c then EmptyString else String c EmptyString
    | r => String c r
    end.
Proof. reflexivity. Qed.

Lemma rstrip_idem (s : string) : PyStr.rstrip (PyStr.rstrip s) = PyStr.rstrip s.
Proof.
  induction s as [|c s IH]; [reflexivity|].
  rewrite rstrip_cons. destruct (PyStr.rstrip s) as [|c' r] eqn:E.
  - destruct (PyStr.isspace c) eqn:Ec; [reflexivity|].
    rewrite rstrip_cons. simpl. now rewrite Ec.
  - rewrite rstrip_cons, IH. reflexivity.
Qed.

Lemma lstrip_head (s : string) :
  match PyStr.lstrip s with
  | EmptyString => True
  | String c _ => PyStr.isspace c = false
  end.
Proof.
  induction s as [|c s IH]; simpl; [exact I|].
  destruct (PyStr.isspace c) eqn:E; [exact IH|exact E].
Qed.

Lemma strip_idem (s : string) : PyStr.strip (PyStr.strip s) = PyStr.strip s.
Proof.
  unfold PyStr.strip. pose proof (lstrip_head s) as H.
  destruct (PyStr.lstrip s) as [|c u]; [reflexivity|].
  assert (Hl : PyStr.lstrip (PyStr.rstrip (String c u))
               = PyStr.rstrip (String c u)).
  { rewrite rstrip_cons. destruct (PyStr.rstrip u); rewrite ?H; simpl;
      now rewrite H. }
  rewrite Hl. apply rstrip_idem.
Qed.

Lemma lower_idem (s : string) : PyStr.lower (PyStr.lower s) = PyStr.lower s.
Proof.
  induction s as [|c s IH]; simpl; [reflexivity|].
  now rewrite lower_char_idem, IH.
Qed.

Lemma tag_key_normal (tag : json) (k : string) :
  tag_key tag = Ok k -> normal_key k.
Proof.
  unfold tag_key, rbind.
  destruct (PyObj.getitem tag "text") as [v|]; [|discriminate].
  destruct v; try discriminate. simpl. intros [= <-].
  exists (PyStr.strip (PyStr.lower s)). split; [reflexivity|].
  split; [apply strip_idem|].
  now rewrite <- strip_lower, lower_idem.
Qed.

Lemma counted_keys_normal (tags : list json) :
  Forall normal_key (counted_keys tags).
Proof.
  induction tags as [|tag tags IH]; simpl; [constructor|].
  destruct (tag_key tag) as [k|] eqn:E; constructor; [|exact IH].
  exact (tag_key_normal _ _ E).
Qed.

Lemma incr_keeps (P : string -> Prop) (k : string) (c : counts_t) :
  P k ->
  Forall (fun kv => P (fst kv) /\ 1 <= snd kv) c ->
  Forall (fun kv => P (fst kv) /\ 1 <= snd kv) (incr k c).
Proof.
  intros Hk. induction c as [|[k' v] c IH]; simpl; intros Hall.
  - constructor; [split; [exact Hk|simpl; lia]|constructor].
  - inversion Hall as [|? ? [Hk' Hv] Hrest]; subst. simpl in *.
    destruct (String.eqb k k').
    + constructor; [split; [exact Hk'|simpl; lia]|exact Hrest].
    + constructor; [split; assumption|apply IH, Hrest].
Qed.

Lemma scan_counts_pairs
  (json_loads : string -> result json) (start_date end_date : option datetime)
  (tweets_path : string) (lines : list string) :
  Forall (fun kv => normal_key (fst kv) /\ 1 <= snd kv)
         (counts (scan_lines json_loads start_date end_date
                    (init tweets_path) lines)).
Proof.
  rewrite scan_lines_counts.
  assert (Hkeys : Forall normal_key
                    (file_keys json_loads start_date end_date lines)).
  { unfold file_keys. apply Forall_flat_map, Forall_forall.
    intros l _. apply counted_keys_normal. }
  simpl counts.
  generalize (@nil (string * Z))
             (Forall_nil (fun kv : string * Z =>
                            normal_key (fst kv) /\ 1 <= snd kv)).
  induction Hkeys as [|k keys Hk _ IH]; intros c Hc; [exact Hc|].
  change (incr_all (k :: keys) c) with (incr_all keys (incr k c)).
  apply IH, incr_keeps; assumption.
Qed.

(** X6. Every pair of the mapping after a file has a key in normal form -
    ["#"] followed by a text without capital letters and without white
    space around it - and a count of at least 1. *)
Theorem counts_normal
  (json_loads : string -> result json) (start_date end_date : option datetime)
  (tweets_path : string) (lines : list string) :
  forall k v,
    In (k, v) (counts (scan_lines json_loads start_date end_date
                         (init tweets_path) lines)) ->
    normal_key k /\ 1 <= v.
Proof.
  intros k v Hin.
  pose proof (scan_counts_pairs json_loads start_date end_date tweets_path
                lines) as Hall.
  rewrite Forall_forall in Hall. exact (Hall (k, v) Hin).
Qed.

(** ** The order of the table *)

Lemma insert_desc_filter (v : Z) (p : string * Z) (l : list (string * Z)) :
  filter (fun x => snd x =? v) (insert_desc p l)
  = filter (fun x => snd x =? v) (p :: l).
Proof.
  induction l as [|x l IH]; [reflexivity|].
  cbn [insert_desc]. destruct (Z.leb_spec (snd x) (snd p)) as [Hle|Hlt];
    [reflexivity|].
  cbn [filter] in *. rewrite IH.
  destruct (Z.eqb_spec (snd x) v), (Z.eqb_spec (snd p) v);
    try reflexivity. lia.
Qed.

(** X7. The sort of the report is stable: the pairs with one and the same
    count appear in the sorted list in the order they have in the mapping,
    that is, in the order in which their hashtags were first seen. *)
Theorem sorted_desc_stable (v : Z) (c : counts_t) :
  filter (fun p => snd p =? v) (sorted_desc c)
  = filter (fun p => snd p =? v) c.
Proof.
  induction c as [|p c IH]; [reflexivity|].
  cbn [sorted_desc]. rewrite insert_desc_filter. cbn [filter]. now rewrite IH.
Qed.

Lemma in_skipn_in {A : Type} (n : nat) :
  forall (l : list A) (y : A), In y (skipn n l) -> In y l.
Proof.
  induction n as [|n IH]; intros [|a l] y Hy; simpl in *; auto.
Qed.

Lemma sorted_split (l : list (string * Z)) :
  StronglySorted (fun a b => snd b <= snd a) l ->
  forall n x y, In x (firstn n l) -> In y (skipn n l) -> snd y <= snd x.
Proof.
  induction 1 as [|a l Hs IH Ha]; intros n x y Hx Hy.
  - rewrite firstn_nil in Hx. destruct Hx.
  - destruct n as [|n]; [destruct Hx|]. cbn [firstn skipn] in *.
    destruct Hx as [<-|Hx].
    + rewrite Forall_forall in Ha. apply Ha.
      exact (in_skipn_in n l y Hy).
    + exact (IH n x y Hx Hy).
Qed.

(** X8. The table shows pairs of the mapping, and the highest ones: the
    pairs of the mapping are the rows of the table and the pairs left out,
    and no pair left out has a higher count than a row. *)
Theorem top_table_highest (top : Z) (c : counts_t) :
  exists hidden,
    Permutation (rows (top_table top c) ++ hidden) c
    /\ forall r h, In r (rows (top_table top c)) -> In h hidden ->
                   snd h <= snd r.
Proof.
  exists (skipn (Z.to_nat (top + 1)) (sorted_desc c)).
  assert (Hrows : rows (top_table top c)
                  = firstn (Z.to_nat (top + 1)) (sorted_desc c)).
  { unfold top_table. rewrite display_rows by lia. simpl.
    now rewrite Z.sub_0_r. }
  rewrite Hrows. split.
  - rewrite firstn_skipn. apply sorted_desc_perm.
  - intros r h. apply sorted_split, sorted_desc_sorted.
Qed.

(** ** Records that cannot be read, and records without hashtags *)

Lemma nonblank_len (l : string) :
  nonblank l = true -> (PyStr.len (PyStr.strip l) =? 0) = false.
Proof. unfold nonblank. intros H. now apply negb_true_iff in H. Qed.

Section Records.

Variable json_loads : string -> result json.
Variables start_date end_date : option datetime.
Variables (st : scan) (l : string).
Hypothesis not_blank : nonblank l = true.

Lemma process_line_read_error (e : exn) :
  read_record json_loads (PyStr.strip l) = Raise e ->
  process_line json_loads start_date end_date st l = failed_before_tags e st.
Proof.
  intros Hread. rewrite process_line_after_line.
  unfold classify, line_tags. rewrite (nonblank_len _ not_blank), Hread.
  unfold after_line, failed_before_tags. simpl. now rewrite Z.add_0_r.
Qed.

Lemma process_line_tags_error (tweet : json) (sdate : datetime) (e : exn) :
  read_record json_loads (PyStr.strip l) = Ok (tweet, sdate) ->
  out_of_range start_date end_date sdate = Ok false ->
  record_tags tweet = Raise e ->
  process_line json_loads start_date end_date st l = failed_before_tags e st.
Proof.
  intros Hread Hin Htags. rewrite process_line_after_line.
  unfold classify, line_tags.
  rewrite (nonblank_len _ not_blank), Hread, Hin, Htags.
  unfold after_line, failed_before_tags. simpl. now rewrite Z.add_0_r.
Qed.

Lemma process_line_no_tags (tweet : json) (sdate : datetime) :
  read_record json_loads (PyStr.strip l) = Ok (tweet, sdate) ->
  out_of_range start_date end_date sdate = Ok false ->
  record_tags tweet = Ok [] ->
  process_line json_loads start_date end_date st l = processed_without_tags st.
Proof.
  intros Hread Hin Htags. rewrite process_line_after_line.
  unfold classify, line_tags.
  rewrite (nonblank_len _ not_blank), Hread, Hin, Htags.
  unfold after_line, processed_without_tags. simpl. now rewrite Z.add_0_r.
Qed.

(** X9. The failure of a line that cannot be read, by its cause.  The line
    is counted as a failure, with the counts, the other counters and the
    tweets with hashtags unchanged, and the exception logged is: the one of
    [json.loads] when the line is not JSON; [TypeError] when the JSON value
    is not an object; [KeyError] when the object has no [created_at];
    [AttributeError] when [created_at] is not a string; [ValueError] when
    it is a string that is not a date. *)
Theorem unreadable_record :
  let st' := process_line json_loads start_date end_date st l in
  (forall e, json_loads (PyStr.strip l) = Raise e ->
             st' = failed_before_tags e st)
  /\ (forall v, json_loads (PyStr.strip l) = Ok v -> is_dict v = false ->
                st' = failed_before_tags TypeError st)
  /\ (forall kvs, json_loads (PyStr.strip l) = Ok (JDict kvs) ->
                  PyObj.assoc "created_at" kvs = None ->
                  st' = failed_before_tags (KeyError "created_at") st)
  /\ (forall kvs v, json_loads (PyStr.strip l) = Ok (JDict kvs) ->
                    PyObj.assoc "created_at" kvs = Some v ->
                    is_string v = false ->
                    st' = failed_before_tags AttributeError st)
  /\ (forall kvs s e, json_loads (PyStr.strip l) = Ok (JDict kvs) ->
                      PyObj.assoc "created_at" kvs = Some (JStr s) ->
                      parse_twitter_date (JStr s) true = Raise e ->
                      st' = failed_before_tags ValueError st).
Proof.
  intros st'. unfold st'. repeat split.
  - intros e H. apply process_line_read_error. unfold read_record.
    now rewrite H.
  - intros v H Hd. apply process_line_read_error. unfold read_record.
    rewrite H. destruct v; try reflexivity. discriminate.
  - intros kvs H Hk. apply process_line_read_error. unfold read_record.
    rewrite H. simpl. now rewrite Hk.
  - intros kvs v H Hk Hs. apply process_line_read_error. unfold read_record.
    rewrite H. simpl. rewrite Hk. simpl.
    destruct v; try reflexivity. discriminate.
  - intros kvs s e H Hk Hp. apply process_line_read_error.
    unfold read_record. rewrite H. cbn [rbind PyObj.getitem]. rewrite Hk.
    cbn [rbind]. rewrite Hp. cbn [rbind].
    now rewrite (strptime_error _ _ _ Hp).
Qed.

(** a record that is read and that the date range keeps *)
Variables (kvs : list (string * json)) (created_at : json) (sdate : datetime).
Hypothesis loaded : json_loads (PyStr.strip l) = Ok (JDict kvs).
Hypothesis has_date : PyObj.assoc "created_at" kvs = Some created_at.
Hypothesis parsed : parse_twitter_date created_at true = Ok sdate.
Hypothesis kept : out_of_range start_date end_date sdate = Ok false.

Lemma read_record_dict :
  read_record json_loads (PyStr.strip l) = Ok (JDict kvs, sdate).
Proof.
  unfold read_record. rewrite loaded. cbn [rbind PyObj.getitem].
  rewrite has_date. cbn [rbind]. now rewrite parsed.
Qed.

(** X10. A record without hashtags is counted as processed and changes
    nothing else: when the record has no [entities], when its [entities]
    object has no [hashtags], or when its [hashtags] list is empty, the
    line advances the counters of lines and of processed tweets (and writes
    the progress notice when due); the counts and the counter of tweets
    with hashtags stay. *)
Theorem record_without_hashtags :
  PyObj.assoc "entities" kvs = None
  \/ (exists members,
         PyObj.assoc "entities" kvs = Some (JDict members)
         /\ (PyObj.assoc "hashtags" members = None
             \/ PyObj.assoc "hashtags" members = Some (JList []))) ->
  process_line json_loads start_date end_date st l = processed_without_tags st.
Proof.
  intros Hshape. apply (process_line_no_tags _ _ read_record_dict kept).
  unfold record_tags. simpl.
  destruct Hshape as [->|(members & -> & [Hh|Hh])]; simpl; rewrite ?Hh;
    reflexivity.
Qed.

(** X11. A record whose [entities], or whose [hashtags] in its [entities]
    object, is [null], a boolean or a number is not a record without
    hashtags but a failure: the line is counted as failed with a
    [TypeError], and not as processed. *)
Theorem scalar_entities_fail :
  (exists v, PyObj.assoc "entities" kvs = Some v /\ scalar v = true)
  \/ (exists members v,
         PyObj.assoc "entities" kvs = Some (JDict members)
         /\ PyObj.assoc "hashtags" members = Some v /\ scalar v = true) ->
  process_line json_loads start_date end_date st l
  = failed_before_tags TypeError st.
Proof.
  intros Hshape. apply (process_line_tags_error _ _ _ read_record_dict kept).
  unfold record_tags. simpl.
  destruct Hshape as [(v & -> & Hv)|(members & v & -> & Hh & Hv)]; simpl.
  - destruct v; try discriminate; reflexivity.
  - rewrite Hh. simpl. destruct v; try discriminate; reflexivity.
Qed.

End Records.

Lemma unreadable_record_witness :
  process_line JsonFragment.json_loads None None (init "f") "[1]"
  = failed_before_tags TypeError (init "f").
Proof.
  destruct (unreadable_record JsonFragment.json_loads None None (init "f")
              "[1]" eq_refl) as (_ & H & _).
  exact (H (JList [JInt 1]) eq_refl eq_refl).
Defined.

Lemma record_without_hashtags_witness :
  process_line JsonFragment.json_loads None None (init "f")
    (JsonFragment.q "{'created_at':'Mon Jan 01 10:00:00 +0000 2024'}")
  = processed_without_tags (init "f").
Proof.
  apply (record_without_hashtags JsonFragment.json_loads None None (init "f")
           (JsonFragment.q "{'created_at':'Mon Jan 01 10:00:00 +0000 2024'}")
           eq_refl
           [("created_at", Examples.foo_created_at)]
           Examples.foo_created_at Examples.foo_date
           eq_refl eq_refl eq_refl eq_refl).
  left. reflexivity.
Defined.

Lemma scalar_entities_fail_witness :
  process_line JsonFragment.json_loads None None (init "f")
    (JsonFragment.q
       "{'created_at':'Mon Jan 01 10:00:00 +0000 2024','entities':null}")
  = failed_before_tags TypeError (init "f").
Proof.
  apply (scalar_entities_fail JsonFragment.json_loads None None (init "f")
           (JsonFragment.q
              "{'created_at':'Mon Jan 01 10:00:00 +0000 2024','entities':null}")
           eq_refl
           [("created_at", Examples.foo_created_at); ("entities", JNull)]
           Examples.foo_created_at Examples.foo_date
           eq_refl eq_refl eq_refl eq_refl).
  left. exists JNull. split; reflexivity.
Defined.

(** ** Tweets with hashtags *)

Lemma process_line_has_hashtags
  (json_loads : string -> result json) (start_date end_date : option datetime)
  (st : scan) (l : string) :
  has_hashtags (process_line json_loads start_date end_date st l)
  = has_hashtags st
    + (if nonempty (line_tags json_loads start_date end_date l)
       then 1 else 0).
Proof.
  rewrite process_line_after_line.
  pose proof (line_tags_outcome json_loads start_date end_date l) as H.
  destruct (classify json_loads start_date end_date l);
    try reflexivity; rewrite H; simpl; lia.
Qed.

(** X12. The counter of tweets with hashtags is the number of lines whose
    record, kept by the date range, has at least one hashtag entry -
    whether or not the line then fails at one of its entries.  When it is
    0 the mapping is empty; and the mapping never has more keys than the
    sum of its counts. *)
Theorem tagged_tweets
  (json_loads : string -> result json) (start_date end_date : option datetime)
  (tweets_path : string) (lines : list string) :
  let st := scan_lines json_loads start_date end_date (init tweets_path) lines in
  has_hashtags st
  = Z.of_nat (List.length
                (filter (fun l => nonempty
                                    (line_tags json_loads start_date end_date l))
                        lines))
  /\ (has_hashtags st = 0 -> counts st = [])
  /\ Z.of_nat (List.length (counts st)) <= sum_counts (counts st).
Proof.
  intros st.
  assert (Hh : forall s,
             has_hashtags (scan_lines json_loads start_date end_date s lines)
             = has_hashtags s
               + Z.of_nat
                   (List.length
                      (filter (fun l => nonempty
                                          (line_tags json_loads start_date
                                             end_date l)) lines))).
  { induction lines as [|l lines IH]; intros s; [simpl; lia|].
    cbn [scan_lines fold_left filter]. unfold scan_lines in IH.
    rewrite IH, process_line_has_hashtags.
    destruct (nonempty _); cbn [List.length]; lia. }
  split; [|split].
  - unfold st. rewrite Hh. simpl. lia.
  - unfold st. rewrite Hh, scan_lines_counts. simpl. intros Hz.
    assert (Hk : file_keys json_loads start_date end_date lines = []).
    { clear Hh st. unfold file_keys.
      induction lines as [|l lines IH]; [reflexivity|].
      cbn [filter flat_map] in *.
      destruct (line_tags json_loads start_date end_date l) eqn:E.
      - simpl in *. apply IH, Hz.
      - simpl in Hz. cbn [List.length] in Hz. lia. }
    now rewrite Hk.
  - pose proof (scan_counts_pairs json_loads start_date end_date tweets_path
                  lines) as Hall. fold st in Hall.
    induction Hall as [|[k v] c [_ Hv] _ IH]; simpl in *; lia.
Qed.

Lemma counts_normal_witness :
  In ("#foo", 1)
     (counts (scan_lines JsonFragment.json_loads None None (init "f")
                [Examples.foo_line]))
  /\ normal_key "#foo".
Proof.
  assert (Hin : In ("#foo", 1)
                   (counts (scan_lines JsonFragment.json_loads None None
                              (init "f") [Examples.foo_line])))
    by (left; reflexivity).
  split; [exact Hin|].
  exact (proj1 (counts_normal JsonFragment.json_loads None None "f"
                  [Examples.foo_line] "#foo" 1 Hin)).
Defined.

(** ** The strict mode of the date parser *)

Lemma set_field_tz (f : Strptime.directive * string) (acc r : datetime) :
  Strptime.set_field f acc = Ok r ->
  (fst f = Strptime.Dz \/ tzinfo acc <> None) -> tzinfo r <> None.
Proof.
  intros Hset [Hz|Hacc].
  - unfold Strptime.set_field, rbind in Hset. rewrite Hz in Hset.
    destruct (Strptime.tz_of (snd f)); [|discriminate].
    injection Hset as <-. discriminate.
  - destruct (set_field_frame _ _ _ Hset) as (Hframe & _).
    destruct f as [d txt]. destruct d; simpl in Hframe;
      try (rewrite Hframe by discriminate; exact Hacc).
    unfold Strptime.set_field, rbind in Hset. simpl in Hset.
    destruct (Strptime.tz_of txt); [|discriminate].
    injection Hset as <-. discriminate.
Qed.

Lemma convert_tz (found : list (Strptime.directive * string)) :
  forall acc r,
    Strptime.convert found acc = Ok r ->
    (In Strptime.Dz (map fst found) \/ tzinfo acc <> None) ->
    tzinfo r <> None.
Proof.
  induction found as [|f found IH]; simpl; intros acc r H Hz.
  - assert (acc = r) as <- by congruence. destruct Hz as [[]|Hz]. exact Hz.
  - destruct (Strptime.set_field f acc) as [acc'|] eqn:E; simpl in H;
      [|discriminate].
    apply (IH _ _ H). destruct Hz as [[Hz|Hz]|Hz].
    + right. apply (set_field_tz _ _ _ E). now left.
    + now left.
    + right. apply (set_field_tz _ _ _ E). now right.
Qed.

Lemma new_tz (y m d hh mi ss us : Z) (tz : option Z) (r : datetime) :
  Datetime.new y m d hh mi ss us tz = Ok r ->
  match tzinfo r with
  | Some off => - 86400000000 < off < 86400000000
  | None => True
  end.
Proof.
  unfold Datetime.new. destruct (_ && _) eqn:E; [|discriminate].
  intros [= <-]. simpl. apply andb_true_iff in E as [_ E].
  destruct tz as [off|]; [|exact I].
  apply andb_true_iff in E as [E1 E2]. lia.
Qed.

(** X13. The strict mode returns an aware timestamp: its UTC offset is set
    and lies strictly between -24 and +24 hours.  Such a timestamp cannot
    be compared with the bounds of the date range, which are naive: the
    range test raises [TypeError]. *)
Theorem strict_mode_aware (s : string) (d : datetime) :
  parse_twitter_date (JStr s) false = Ok d ->
  (exists off, tzinfo d = Some off /\ - 86400000000 < off < 86400000000)
  /\ (forall bound, tzinfo bound = None ->
        out_of_range (Some bound) None d = Raise TypeError
        /\ out_of_range None (Some bound) d = Raise TypeError).
Proof.
  unfold parse_twitter_date. intros Hparse.
  assert (Hsome : exists off,
             tzinfo d = Some off /\ - 86400000000 < off < 86400000000).
  { assert (Hrange := Hparse). unfold Strptime.strptime in Hrange.
    destruct (Strptime.compile twitter_format_tz) as [items|];
      [|discriminate].
    destruct (Strptime.matches items s) as [|[found rest] ms];
      [discriminate|].
    destruct rest; [|discriminate].
    destruct (Strptime.convert found Strptime.defaults) as [f|];
      [|discriminate].
    apply new_tz in Hrange.
    apply strptime_inv in Hparse
      as (items' & found' & f' & Hc & Hd & Hf & Heq & _).
    injection Hc as <-. simpl in Hd.
    assert (Htz : tzinfo f' <> None).
    { apply (convert_tz _ _ _ Hf). left. rewrite Hd. simpl. tauto. }
    rewrite Heq in *. simpl in *.
    destruct (tzinfo f') as [off|]; [|contradiction].
    exists off. split; [reflexivity|exact Hrange]. }
  split; [exact Hsome|].
  destruct Hsome as (off & Htz & _). intros bound Hb.
  unfold out_of_range, Datetime.lt, Datetime.gt, Datetime.cmp.
  rewrite Htz, Hb. split; reflexivity.
Qed.

Lemma strict_mode_aware_witness :
  out_of_range (Some (Examples.midnight 2024 1 1)) None
    (mk_datetime 2024 1 1 10 0 0 0 (Some 3600000000))
  = Raise TypeError.
Proof.
  destruct (strict_mode_aware "Mon Jan 01 10:00:00 +0100 2024"
              (mk_datetime 2024 1 1 10 0 0 0 (Some 3600000000)) eq_refl)
    as (_ & H).
  exact (proj1 (H (Examples.midnight 2024 1 1) eq_refl)).
Defined.

(** ** A range whose start is after its end *)

Lemma lex_compare_ge_gt (a : list Z) :
  forall b c,
    Datetime.lex_compare a b <> Lt ->
    Datetime.lex_compare b c = Gt ->
    Datetime.lex_compare a c = Gt.
Proof.
  induction a as [|x a IH]; intros [|y b] [|z c]; simpl;
    try congruence; try discriminate.
  destruct (Z.compare_spec x y), (Z.compare_spec y z), (Z.compare_spec x z);
    intros Hab Hbc; try congruence; try lia; try discriminate.
  eapply IH; eassumption.
Qed.

Section InvertedRange.

Variable json_loads : string -> result json.
Variables (start_opt end_opt : string) (sd ed : datetime).
Hypothesis start_given : date_option start_opt = Ok (Some sd).
Hypothesis end_given : date_option end_opt = Ok (Some ed).
Hypothesis inverted :
  Datetime.lex_compare (Datetime.fields sd) (Datetime.fields ed) = Gt.

Lemma inverted_line (st : scan) (l : string) :
  let st' := process_line json_loads (Some sd) (Some ed) st l in
  counts st' = counts st /\ num_tweets st' = num_tweets st
  /\ has_hashtags st' = has_hashtags st.
Proof.
  intros st'. unfold st'. rewrite process_line_after_line.
  unfold classify, line_tags.
  destruct (PyStr.len (PyStr.strip l) =? 0); [repeat split|].
  destruct (read_record json_loads (PyStr.strip l)) as [[tweet sdate]|e] eqn:E;
    [|simpl; repeat split; lia].
  assert (Hparse : exists c, parse_twitter_date c true = Ok sdate).
  { unfold read_record, rbind in E.
    destruct (json_loads (PyStr.strip l)) as [v|]; [|discriminate].
    destruct (PyObj.getitem v "created_at") as [c|]; [|discriminate].
    exists c. destruct (parse_twitter_date c true); congruence. }
  destruct Hparse as (c & Hparse).
  destruct (parse_twitter_date_naive _ _ Hparse) as (Hnaive & _).
  rewrite (out_of_range_within (Some sd) (Some ed) sdate Hnaive).
  - assert (Hw : within (Some sd) (Some ed) sdate = false).
    { unfold within.
      destruct (Datetime.lex_compare (Datetime.fields sdate)
                                     (Datetime.fields sd)) eqn:C1;
        try reflexivity;
        rewrite (lex_compare_ge_gt _ _ _ ltac:(rewrite C1; discriminate)
                   inverted); reflexivity. }
    rewrite Hw. simpl. repeat split.
  - intros x [= <-]. apply (date_option_naive _ _ start_given sd eq_refl).
  - intros x [= <-]. apply (date_option_naive _ _ end_given ed eq_refl).
Qed.

(** X14. A date range whose start is after its end keeps nothing: every
    record is filtered out, so whatever the file no tweet is processed, no
    hashtag is counted and the table has no row. *)
Theorem inverted_range_keeps_nothing
  (top : Z) (tweets_path : string) (lines : list string) :
  let st := scan_lines json_loads (Some sd) (Some ed) (init tweets_path)
              lines in
  num_tweets st = 0 /\ has_hashtags st = 0 /\ counts st = []
  /\ rows (top_table top (counts st)) = [].
Proof.
  intros st.
  assert (H : forall s,
             let s' := scan_lines json_loads (Some sd) (Some ed) s lines in
             counts s' = counts s /\ num_tweets s' = num_tweets s
             /\ has_hashtags s' = has_hashtags s).
  { induction lines as [|l lines IH]; intros s; [repeat split|].
    cbn [scan_lines fold_left]. unfold scan_lines in IH.
    destruct (IH (process_line json_loads (Some sd) (Some ed) s l))
      as (A1 & A2 & A3).
    destruct (inverted_line s l) as (B1 & B2 & B3).
    rewrite A1, A2, A3. repeat split; assumption. }
  destruct (H (init tweets_path)) as (H1 & H2 & H3). fold st in H1, H2, H3.
  rewrite H1, H2, H3. repeat split.
Qed.

End InvertedRange.

Lemma inverted_range_keeps_nothing_witness :
  let st := scan_lines JsonFragment.json_loads
              (Some (Examples.midnight 2024 1 2))
              (Some (Examples.midnight 2023 12 31)) (init "f")
              [Examples.foo_line] in
  num_tweets st = 0 /\ counts st = [].
Proof.
  destruct (inverted_range_keeps_nothing JsonFragment.json_loads
              "2024-01-02" "2023-12-31"
              (Examples.midnight 2024 1 2) (Examples.midnight 2023 12 31)
              eq_refl eq_refl eq_refl 10 "f" [Examples.foo_line])
    as (H1 & _ & H3 & _).
  split; [exact H1|exact H3].
Defined.

(** ** [main] *)

(** X16. The files of one run do not influence each other: the log of a
    run over two lists of files is the log of a run over the first list
    followed by the log of a run over the second. *)
Theorem main_files_independent
  (json_loads : string -> result json) (opts : options)
  (args1 args2 : list (string * list string)) (log1 log2 : list log_entry) :
  main json_loads opts args1 = Ok log1 ->
  main json_loads opts args2 = Ok log2 ->
  main json_loads opts (args1 ++ args2)%list = Ok (log1 ++ log2)%list.
Proof.
  unfold main. intros H1 H2.
  destruct args1 as [|a1 args1]; [discriminate|].
  destruct args2 as [|a2 args2]; [discriminate|].
  cbn [List.length app] in *.
  replace (Z.of_nat (S (List.length args1)) <? 1)
    with false in H1 by (symmetry; apply Z.ltb_ge; lia).
  replace (Z.of_nat (S (List.length args2)) <? 1)
    with false in H2 by (symmetry; apply Z.ltb_ge; lia).
  replace (Z.of_nat (S (List.length (args1 ++ a2 :: args2))) <? 1)
    with false by (symmetry; apply Z.ltb_ge; lia).
  destruct (date_option (opt_start_date opts)) as [s|]; [|discriminate].
  destruct (date_option (opt_end_date opts)) as [e|]; [|discriminate].
  cbn [rbind] in *. injection H1 as <-. injection H2 as <-.
  f_equal. cbn [flat_map]. rewrite flat_map_app. cbn [flat_map].
  now rewrite app_assoc.
Qed.

Lemma main_files_independent_witness :
  main JsonFragment.json_loads default_options
    ([("f", [Examples.foo_line])] ++ [("g", [Examples.garbage_line])])%list
  = Ok ([Loading "f"; Found 1 1 1; Top 1;
         Tab (mk_table ["Hashtag"; "Count"] [("Hashtag", "l"); ("Count", "r")]
                       [("#foo", 1)])]
        ++ [Loading "g"; Failed 1 ValueError; Found 0 0 0; Top 0;
            Tab empty_table])%list.
Proof.
  apply (main_files_independent JsonFragment.json_loads default_options
           [("f", [Examples.foo_line])] [("g", [Examples.garbage_line])]);
    reflexivity.
Defined.

(** ** The date range *)

Section DateRange.

Variable json_loads : string -> result json.

(** a line; its record and the date of the record *)
Variables (l : string) (tweet created_at : json) (sdate : datetime).
Hypothesis not_blank : PyStr.strip l <> EmptyString.
Hypothesis loaded : json_loads (PyStr.strip l) = Ok tweet.
Hypothesis has_date : PyObj.getitem tweet "created_at" = Ok created_at.
Hypothesis parsed : parse_twitter_date created_at true = Ok sdate.

(** C3. A record whose date is strictly before the configured start date
    or strictly after the configured end date adds nothing to the counts
    and is not counted as processed (the line only advances the counter of
    lines).  A record inside the range is counted: its hashtag entries are
    added to the counts and, unless one of them fails, the counter of
    processed tweets is incremented - exactly as when no bound is
    configured.  Both bounds are inclusive - a date equal to a bound is
    inside - and an omitted bound excludes nothing: a date is outside
    exactly when a configured start is strictly after it or a configured
    end strictly before it. *)
Theorem date_range_filter
  (start_opt end_opt : string) (start_date end_date : option datetime)
  (st : scan) :
  date_option start_opt = Ok start_date ->
  date_option end_opt = Ok end_date ->
  let st' := process_line json_loads start_date end_date st l in
  (within start_date end_date sdate = false ->
   counts st' = counts st /\ num_tweets st' = num_tweets st
   /\ st' = incr_line_number st)
  /\ (within start_date end_date sdate = true ->
      st' = process_line json_loads None None st l
      /\ line_number st' = line_number st + 1
      /\ match record_tags tweet with
         | Raise e => st' = failed_before_tags e st
         | Ok tags =>
             counts st' = incr_all (counted_keys tags) (counts st)
             /\ has_hashtags st'
                = has_hashtags st + (if nonempty tags then 1 else 0)
             /\ match first_error tags with
                | None =>
                    num_tweets st' = num_tweets st + 1
                    /\ num_failed st' = num_failed st
                | Some e =>
                    num_tweets st' = num_tweets st
                    /\ num_failed st' = num_failed st + 1
                end
         end)
  /\ (forall b, Datetime.fields b = Datetime.fields sdate ->
                within (Some b) (Some b) sdate = true
                /\ within (Some b) None sdate = true
                /\ within None (Some b) sdate = true)
  /\ within None None sdate = true
  /\ (within start_date end_date sdate = false <->
      (exists sd, start_date = Some sd
                  /\ Datetime.lex_compare (Datetime.fields sdate)
                                          (Datetime.fields sd) = Lt)
      \/ (exists ed, end_date = Some ed
                     /\ Datetime.lex_compare (Datetime.fields sdate)
                                             (Datetime.fields ed) = Gt)).
Proof.
  intros Hstart Hend st'.
  destruct (parse_twitter_date_naive _ _ parsed) as (Hnaive & _ & _).
  assert (Hout : out_of_range start_date end_date sdate
                 = Ok (negb (within start_date end_date sdate))).
  { apply out_of_range_within; [exact Hnaive| |].
    - intros sd Hsd. apply (date_option_naive _ _ Hstart sd Hsd).
    - intros ed Hed. apply (date_option_naive _ _ Hend ed Hed). }
  pose proof (read_record_ok json_loads l tweet created_at sdate
                loaded has_date parsed) as Hread.
  split; [|split; [|split; [|split]]].
  - intros Hw. rewrite Hw in Hout. unfold st'.
    rewrite (process_line_filtered json_loads l tweet created_at sdate
               not_blank loaded has_date parsed _ _ st Hout).
    now destruct st.
  - intros Hw. rewrite Hw in Hout. simpl in Hout.
    split; [exact (process_line_kept json_loads l tweet created_at sdate
                     not_blank loaded has_date parsed _ _ st Hout)|].
    unfold st'. rewrite process_line_after_line.
    unfold classify, line_tags.
    rewrite (len_nonzero _ not_blank), Hread, Hout.
    destruct (record_tags tweet) as [tags|e].
    + destruct (first_error tags); unfold after_line; simpl;
        repeat split; reflexivity.
    + unfold after_line, failed_before_tags. simpl.
      split; [reflexivity|]. now rewrite Z.add_0_r.
  - intros b Hb. unfold within. now rewrite Hb, lex_compare_refl.
  - reflexivity.
  - unfold within. split.
    + intros Hw. apply andb_false_iff in Hw as [Hw|Hw].
      * left. destruct start_date as [sd|]; [|discriminate].
        exists sd. split; [reflexivity|].
        now destruct (Datetime.lex_compare _ _).
      * right. destruct end_date as [ed|]; [|discriminate].
        exists ed. split; [reflexivity|].
        now destruct (Datetime.lex_compare _ _).
    + intros [(sd & -> & Hc)|(ed & -> & Hc)]; rewrite Hc;
        [reflexivity|apply andb_false_r].
Qed.

End DateRange.

Lemma date_range_filter_witness :
  let bound := Some (Examples.midnight 2024 1 1) in
  let at_bound := process_line JsonFragment.json_loads bound bound
                    (init "f") Examples.midnight_line in
  let unbounded := process_line JsonFragment.json_loads None None
                     (init "f") Examples.midnight_line in
  counts at_bound = [("#foo", 1)] /\ num_tweets at_bound = 1
  /\ counts unbounded = [("#foo", 1)] /\ num_tweets unbounded = 1.
Proof.
  pose proof (date_range_filter JsonFragment.json_loads
                Examples.midnight_line Examples.midnight_tweet
                Examples.midnight_created_at (Examples.midnight 2024 1 1)
                ltac:(vm_compute; discriminate) eq_refl eq_refl eq_refl
                "2024-01-01" "2024-01-01"
                (Some (Examples.midnight 2024 1 1))
                (Some (Examples.midnight 2024 1 1))
                (init "f") eq_refl eq_refl) as (_ & Hkept & _).
  pose proof (date_range_filter JsonFragment.json_loads
                Examples.midnight_line Examples.midnight_tweet
                Examples.midnight_created_at (Examples.midnight 2024 1 1)
                ltac:(vm_compute; discriminate) eq_refl eq_refl eq_refl
                "" "" None None (init "f") eq_refl eq_refl)
    as (_ & Hfree & _).
  destruct (Hkept eq_refl) as (_ & _ & Hc & _ & Hn & _).
  destruct (Hfree eq_refl) as (_ & _ & Hc' & _ & Hn' & _).
  repeat split; assumption.
Defined.

(** ** A file without valid lines *)







(** ** The text of a date option *)

Lemma append_nil_r (s : string) : s ++ EmptyString = s.
Proof. induction s as [|c s IH]; simpl; [|rewrite IH]; reflexivity. Qed.

Lemma append_assoc (a b c : string) : (a ++ b) ++ c = a ++ (b ++ c).
Proof. induction a as [|x a IH]; simpl; [|rewrite IH]; reflexivity. Qed.

Lemma many1_sound (p : ascii -> bool) (s : string) :
  forall m r, In (m, r) (Re.many1 p s) -> s = m ++ r.
Proof.
  induction s as [|c s IH]; simpl; intros m r Hin; [destruct Hin|].
  destruct (p c); [|destruct Hin].
  apply in_app_or in Hin as [Hin|[[= <- <-]|[]]]; [|reflexivity].
  apply in_map_iff in Hin as ([m' r'] & [= <- <-] & Hin).
  simpl. now rewrite (IH _ _ Hin).
Qed.

(** what a regular expression matches is the start of the text *)
Lemma run_sound (re : Re.re) :
  forall s m r, In (m, r) (Re.run re s) -> s = m ++ r.
Proof.
  induction re as [|p|r1 IH1 r2 IH2|r1 IH1 r2 IH2|r1 IH1|p];
    simpl; intros s m r Hin.
  - destruct Hin as [[= <- <-]|[]]. reflexivity.
  - destruct s as [|c s]; [destruct Hin|].
    destruct (p c); [|destruct Hin].
    destruct Hin as [[= <- <-]|[]]. reflexivity.
  - apply in_flat_map in Hin as ([m1 s1] & H1 & Hin).
    apply in_map_iff in Hin as ([m2 s2] & [= <- <-] & H2). simpl in *.
    rewrite (IH1 _ _ _ H1), (IH2 _ _ _ H2). now rewrite append_assoc.
  - apply in_app_or in Hin as [Hin|Hin]; eauto.
  - apply in_app_or in Hin as [Hin|[[= <- <-]|[]]]; eauto.
  - exact (many1_sound _ _ _ _ Hin).
Qed.

Lemma matches_cons (it : Strptime.item) (items : list Strptime.item)
  (s : string) (found : list (Strptime.directive * string)) (r : string) :
  In (found, r) (Strptime.matches (it :: items) s) ->
  exists m r1 found',
    s = m ++ r1
    /\ In (m, r1) (Re.run (Strptime.item_re it) s)
    /\ In (found', r) (Strptime.matches items r1)
    /\ found = (Strptime.capture it m ++ found')%list.
Proof.
  cbn [Strptime.matches]. intros Hin.
  apply in_flat_map in Hin as ([m r1] & H1 & Hin).
  apply in_map_iff in Hin as ([found' r'] & [= <- <-] & H2).
  exists m, r1, found'. repeat split; try assumption.
  exact (run_sound _ _ _ _ H1).
Qed.

Lemma run_cls_length (ps : list (ascii -> bool)) :
  forall s m r,
    In (m, r) (Re.run (Re.cls ps) s) -> String.length m = List.length ps.
Proof.
  induction ps as [|p ps IH]; intros s m r Hin.
  - destruct Hin as [[= <- <-]|[]]. reflexivity.
  - destruct ps as [|p' ps].
    + simpl in Hin. destruct s as [|c s]; [destruct Hin|].
      destruct (p c); [|destruct Hin].
      destruct Hin as [[= <- <-]|[]]. reflexivity.
    + change (Re.cls (p :: p' :: ps))
        with (Re.Seq (Re.Chr p) (Re.cls (p' :: ps))) in Hin.
      cbn [Re.run] in Hin.
      apply in_flat_map in Hin as ([m1 s1] & H1 & Hin).
      apply in_map_iff in Hin as ([m2 s2] & [= <- <-] & H2).
      destruct s as [|c s]; [destruct H1|].
      destruct (p c); [|destruct H1].
      destruct H1 as [[= <- <-]|[]]. simpl.
      now rewrite (IH _ _ _ H2).
Qed.





(** ** What the date parser accepts *)

Lemma many1_spaces (s : string) :
  forall m r, In (m, r) (Re.many1 PyStr.isspace s) -> spaces m.
Proof.
  induction s as [|c s IH]; simpl; intros m r Hin; [destruct Hin|].
  destruct (PyStr.isspace c) eqn:Ec; [|destruct Hin].
  apply in_app_or in Hin as [Hin|[[= <- <-]|[]]].
  - apply in_map_iff in Hin as ([m' r'] & [= <- <-] & Hin).
    destruct (IH _ _ Hin) as [_ Hall].
    split; [discriminate|]. simpl. now rewrite Ec.
  - split; [discriminate|]. simpl. now rewrite Ec.
Qed.

Lemma run_colon (s m r : string) :
  In (m, r) (Re.run (Strptime.item_re (Strptime.Literal ":")) s) -> m = ":".
Proof.
  simpl. destruct s as [|c s]; [intros []|].
  destruct (Re.nocase ":" c) eqn:E; [|intros []].
  intros [[= <- <-]|[]]. unfold Re.nocase in E. apply Ascii.eqb_eq in E.
  f_equal. revert E.
  destruct c as [[] [] [] [] [] [] [] []]; vm_compute; congruence.
Qed.

Lemma run_word (w : string) :
  forall s m r, In (m, r) (Re.run (Re.word w) s) ->
                PyStr.lower m = PyStr.lower w.
Proof.
  induction w as [|c w IH]; intros s m r Hin.
  - destruct Hin as [[= <- <-]|[]]. reflexivity.
  - destruct w as [|c' w].
    + simpl in Hin. destruct s as [|x s]; [destruct Hin|].
      destruct (Re.nocase c x) eqn:E; [|destruct Hin].
      destruct Hin as [[= <- <-]|[]]. unfold Re.nocase in E.
      apply Ascii.eqb_eq in E. simpl. now rewrite E.
    + change (Re.word (String c (String c' w)))
        with (Re.Seq (Re.Chr (Re.nocase c)) (Re.word (String c' w))) in Hin.
      cbn [Re.run] in Hin.
      apply in_flat_map in Hin as ([m1 s1] & H1 & Hin).
      apply in_map_iff in Hin as ([m2 s2] & [= <- <-] & H2).
      destruct s as [|x s]; [destruct H1|].
      destruct (Re.nocase c x) eqn:E; [|destruct H1].
      destruct H1 as [[= <- <-]|[]]. unfold Re.nocase in E.
      apply Ascii.eqb_eq in E. cbn [fst append PyStr.lower].
      rewrite (IH _ _ _ H2), E. reflexivity.
Qed.

Lemma run_alts (rs : list Re.re) :
  forall s m r, In (m, r) (Re.run (Re.alts rs) s) ->
                exists re, In re rs /\ In (m, r) (Re.run re s).
Proof.
  induction rs as [|re rs IH]; intros s m r Hin.
  - simpl in Hin. destruct s; destruct Hin.
  - destruct rs as [|re' rs].
    + exists re. split; [now left|exact Hin].
    + change (Re.alts (re :: re' :: rs))
        with (Re.Alt re (Re.alts (re' :: rs))) in Hin.
      cbn [Re.run] in Hin. apply in_app_or in Hin as [Hin|Hin].
      * exists re. split; [now left|exact Hin].
      * destruct (IH _ _ _ Hin) as (re0 & Hre & Hrun).
        exists re0. split; [now right|exact Hrun].
Qed.

Lemma run_weekday (s m r : string) :
  In (m, r) (Re.run (Strptime.regex Strptime.Da) s) ->
  In (PyStr.lower m) Strptime.weekdays.
Proof.
  intros Hin. apply run_alts in Hin as (re & Hre & Hrun).
  apply in_map_iff in Hre as (w & <- & Hw).
  rewrite (run_word _ _ _ _ Hrun).
  repeat (destruct Hw as [<-|Hw]; [simpl; tauto|]). destruct Hw.
Qed.

Lemma run_spaces (s m r : string) :
  In (m, r) (Re.run (Strptime.item_re Strptime.Space) s) -> spaces m.
Proof. exact (many1_spaces s m r). Qed.

Lemma set_field_weekday (t : string) (acc r : datetime) :
  Strptime.set_field (Strptime.Da, t) acc = Ok r -> r = acc.
Proof. unfold Strptime.set_field. cbn [fst]. congruence. Qed.

Lemma set_field_month (t : string) (acc r : datetime) :
  Strptime.set_field (Strptime.Db, t) acc = Ok r ->
  exists i,
    Strptime.index_of (PyStr.lower t) Strptime.months = Some i
    /\ r = mk_datetime (year acc) (i + 1) (day acc) (hour acc) (minute acc)
                       (second acc) (microsecond acc) (tzinfo acc).
Proof.
  unfold Strptime.set_field. cbn [fst snd].
  destruct (Strptime.index_of _ _) as [i|]; [|discriminate].
  intros [= <-]. now exists i.
Qed.

Lemma convert_cons (f : Strptime.directive * string)
  (rest : list (Strptime.directive * string)) (acc r : datetime) :
  Strptime.convert (f :: rest) acc = Ok r ->
  exists acc', Strptime.set_field f acc = Ok acc'
               /\ Strptime.convert rest acc' = Ok r.
Proof.
  cbn [Strptime.convert].
  destruct (Strptime.set_field f acc) as [acc'|]; [|discriminate].
  intros H. now exists acc'.
Qed.

Lemma set_field_number (dir : Strptime.directive) (t : string)
  (acc r : datetime) :
  In dir [Strptime.Dd; Strptime.DH; Strptime.DM; Strptime.DS; Strptime.DY] ->
  Strptime.set_field (dir, t) acc = Ok r ->
  exists v,
    Strptime.int_of t = Ok v
    /\ r = match dir with
           | Strptime.Dd =>
               mk_datetime (year acc) (month acc) v (hour acc) (minute acc)
                           (second acc) (microsecond acc) (tzinfo acc)
           | Strptime.DH =>
               mk_datetime (year acc) (month acc) (day acc) v (minute acc)
                           (second acc) (microsecond acc) (tzinfo acc)
           | Strptime.DM =>
               mk_datetime (year acc) (month acc) (day acc) (hour acc) v
                           (second acc) (microsecond acc) (tzinfo acc)
           | Strptime.DS =>
               mk_datetime (year acc) (month acc) (day acc) (hour acc)
                           (minute acc) v (microsecond acc) (tzinfo acc)
           | _ =>
               mk_datetime v (month acc) (day acc) (hour acc) (minute acc)
                           (second acc) (microsecond acc) (tzinfo acc)
           end.
Proof.
  intros Hdir. unfold Strptime.set_field. cbn [fst snd].
  destruct Hdir as [<-|[<-|[<-|[<-|[<-|[]]]]]];
    (destruct (Strptime.int_of t) as [v|]; [|discriminate]);
    cbn [rbind]; intros [= <-]; now exists v.
Qed.

Lemma set_field_zone (t : string) (acc r : datetime) :
  Strptime.set_field (Strptime.Dz, t) acc = Ok r ->
  exists off,
    Strptime.tz_of t = Ok off
    /\ r = mk_datetime (year acc) (month acc) (day acc) (hour acc)
                       (minute acc) (second acc) (microsecond acc) (Some off).
Proof.
  unfold Strptime.set_field. cbn [fst snd].
  destruct (Strptime.tz_of t) as [off|]; [|discriminate].
  cbn [rbind]. intros [= <-]. now exists off.
Qed.

(** the items of the layout up to the white space after the seconds *)
Lemma matches_head (items : list Strptime.item) (text : string)
  (found : list (Strptime.directive * string)) (r : string) :
  In (found, r)
     (Strptime.matches
        (Strptime.Group Strptime.Da :: Strptime.Space
         :: Strptime.Group Strptime.Db :: Strptime.Space
         :: Strptime.Group Strptime.Dd :: Strptime.Space
         :: Strptime.Group Strptime.DH :: Strptime.Literal ":"
         :: Strptime.Group Strptime.DM :: Strptime.Literal ":"
         :: Strptime.Group Strptime.DS :: Strptime.Space :: items) text) ->
  exists wd w1 mon w2 dd w3 HH MM SS w4 rest found',
    text = wd ++ w1 ++ mon ++ w2 ++ dd ++ w3
           ++ HH ++ ":" ++ MM ++ ":" ++ SS ++ w4 ++ rest
    /\ In (PyStr.lower wd) Strptime.weekdays
    /\ spaces w1 /\ spaces w2 /\ spaces w3 /\ spaces w4
    /\ In (found', r) (Strptime.matches items rest)
    /\ found = ((Strptime.Da, wd) :: (Strptime.Db, mon) :: (Strptime.Dd, dd)
                :: (Strptime.DH, HH) :: (Strptime.DM, MM)
                :: (Strptime.DS, SS) :: found')%list.
Proof.
  intros Hin.
  apply matches_cons in Hin as (wd & r1 & f1 & E1 & R1 & Hin & F1).
  apply matches_cons in Hin as (w1 & r2 & f2 & E2 & R2 & Hin & F2).
  apply matches_cons in Hin as (mon & r3 & f3 & E3 & R3 & Hin & F3).
  apply matches_cons in Hin as (w2 & r4 & f4 & E4 & R4 & Hin & F4).
  apply matches_cons in Hin as (dd & r5 & f5 & E5 & R5 & Hin & F5).
  apply matches_cons in Hin as (w3 & r6 & f6 & E6 & R6 & Hin & F6).
  apply matches_cons in Hin as (HH & r7 & f7 & E7 & R7 & Hin & F7).
  apply matches_cons in Hin as (c1 & r8 & f8 & E8 & R8 & Hin & F8).
  apply matches_cons in Hin as (MM & r9 & f9 & E9 & R9 & Hin & F9).
  apply matches_cons in Hin as (c2 & r10 & f10 & E10 & R10 & Hin & F10).
  apply matches_cons in Hin as (SS & r11 & f11 & E11 & R11 & Hin & F11).
  apply matches_cons in Hin as (w4 & r12 & f12 & E12 & R12 & Hin & F12).
  apply run_weekday in R1. apply run_spaces in R2. apply run_spaces in R4.
  apply run_spaces in R6. apply run_spaces in R12.
  apply run_colon in R8. apply run_colon in R10. subst c1 c2.
  exists wd, w1, mon, w2, dd, w3, HH, MM, SS, w4, r12, f12.
  split; [congruence|].
  repeat (split; [assumption|]).
  subst. reflexivity.
Qed.

Lemma convert_head (wd mon dd HH MM SS : string)
  (found : list (Strptime.directive * string)) (r : datetime) :
  Strptime.convert
    ((Strptime.Da, wd) :: (Strptime.Db, mon) :: (Strptime.Dd, dd)
     :: (Strptime.DH, HH) :: (Strptime.DM, MM) :: (Strptime.DS, SS) :: found)
    Strptime.defaults = Ok r ->
  exists i vd vH vM vS,
    Strptime.index_of (PyStr.lower mon) Strptime.months = Some i
    /\ Strptime.int_of dd = Ok vd /\ Strptime.int_of HH = Ok vH
    /\ Strptime.int_of MM = Ok vM /\ Strptime.int_of SS = Ok vS
    /\ Strptime.convert found (mk_datetime 1900 (i + 1) vd vH vM vS 0 None)
       = Ok r.
Proof.
  intros H.
  apply convert_cons in H as (a1 & S1 & H). apply set_field_weekday in S1.
  apply convert_cons in H as (a2 & S2 & H).
  apply set_field_month in S2 as (i & Hi & ->).
  apply convert_cons in H as (a3 & S3 & H).
  apply set_field_number in S3 as (vd & Hd & ->); [|simpl; tauto].
  apply convert_cons in H as (a4 & S4 & H).
  apply set_field_number in S4 as (vH & HH' & ->); [|simpl; tauto].
  apply convert_cons in H as (a5 & S5 & H).
  apply set_field_number in S5 as (vM & HM & ->); [|simpl; tauto].
  apply convert_cons in H as (a6 & S6 & H).
  apply set_field_number in S6 as (vS & HS & ->); [|simpl; tauto].
  subst a1. cbn in H.
  exists i, vd, vH, vM, vS. repeat (split; [assumption|]). exact H.
Qed.

Lemma strptime_first (data fmt : string) (d : datetime) :
  Strptime.strptime data fmt = Ok d ->
  exists items found f,
    Strptime.compile fmt = Some items
    /\ In (found, EmptyString) (Strptime.matches items data)
    /\ Strptime.convert found Strptime.defaults = Ok f
    /\ d = mk_datetime (year f) (month f) (day f) (hour f) (minute f)
                       (second f) (microsecond f) (tzinfo f)
    /\ valid_datetime d.
Proof.
  unfold Strptime.strptime.
  destruct (Strptime.compile fmt) as [items|]; [|discriminate].
  destruct (Strptime.matches items data) as [|[found rest] ms] eqn:Hm;
    [discriminate|].
  destruct rest; [|discriminate].
  destruct (Strptime.convert found Strptime.defaults) as [f|] eqn:Hc; simpl;
    [|discriminate].
  intros Hnew. apply new_inv in Hnew as [-> Hv].
  exists items, found, f.
  split; [reflexivity|]. split; [rewrite Hm; now left|].
  split; [exact Hc|split; [reflexivity|exact Hv]].
Qed.

(** a text the layout without a time zone reads is written in that layout *)
Lemma strptime_layout_naive (text : string) (d : datetime) :
  Strptime.strptime text twitter_format = Ok d ->
  layout_naive text d /\ valid_datetime d /\ microsecond d = 0.
Proof.
  intros H.
  apply strptime_first in H as (items & found & f & Hc & Hin & Hf & -> & Hv).
  injection Hc as <-.
  apply matches_head in Hin
    as (wd & w1 & mon & w2 & dd & w3 & HH & MM & SS & w4 & rest & found'
        & Htext & Hwd & S1 & S2 & S3 & S4 & Hin & ->).
  apply matches_cons in Hin as (YYYY & r1 & f1 & E1 & R1 & Hin & ->).
  destruct Hin as [[= Hf1 Hr1]|[]]. subst f1 r1.
  rewrite append_nil_r in E1. subst rest.
  change (Strptime.item_re (Strptime.Group Strptime.DY))
    with (Re.cls [Re.digit; Re.digit; Re.digit; Re.digit]) in R1.
  apply run_cls_length in R1.
  apply convert_head in Hf as (i & vd & vH & vM & vS & Hi & Hd & HH' & HM & HS
                               & Hf).
  cbn [Strptime.capture app] in Hf.
  apply convert_cons in Hf as (a & Sy & Hf).
  apply set_field_number in Sy as (vy & Hy & ->); [|simpl; tauto].
  cbn in Hf. injection Hf as <-. cbn in Hv |- *.
  split; [|split; [exact Hv|reflexivity]].
  exists YYYY. split; [|split; [split; assumption|reflexivity]].
  exists wd, w1, mon, w2, dd, w3, HH, MM, SS, w4. cbn.
  replace (i + 1 - 1) with i by lia.
  repeat (split; [assumption|]). assumption.
Qed.

(** a text the layout with a time zone reads is written in that layout *)
Lemma strptime_layout_aware (text : string) (d : datetime) :
  Strptime.strptime text twitter_format_tz = Ok d ->
  layout_aware text d /\ valid_datetime d /\ microsecond d = 0.
Proof.
  intros H.
  apply strptime_first in H as (items & found & f & Hc & Hin & Hf & -> & Hv).
  injection Hc as <-.
  apply matches_head in Hin
    as (wd & w1 & mon & w2 & dd & w3 & HH & MM & SS & w4 & rest & found'
        & Htext & Hwd & S1 & S2 & S3 & S4 & Hin & ->).
  apply matches_cons in Hin as (z & r1 & f1 & E1 & R1 & Hin & ->).
  apply matches_cons in Hin as (w5 & r2 & f2 & E2 & R2 & Hin & ->).
  apply matches_cons in Hin as (YYYY & r3 & f3 & E3 & R3 & Hin & ->).
  destruct Hin as [[= Hf3 Hr3]|[]]. subst f3 r3.
  rewrite append_nil_r in E3. subst r2 r1 rest.
  apply run_spaces in R2.
  change (Strptime.item_re (Strptime.Group Strptime.DY))
    with (Re.cls [Re.digit; Re.digit; Re.digit; Re.digit]) in R3.
  apply run_cls_length in R3.
  apply convert_head in Hf as (i & vd & vH & vM & vS & Hi & Hd & HH' & HM & HS
                               & Hf).
  cbn [Strptime.capture app] in Hf.
  apply convert_cons in Hf as (a & Sz & Hf).
  apply set_field_zone in Sz as (off & Hoff & ->).
  apply convert_cons in Hf as (a & Sy & Hf).
  apply set_field_number in Sy as (vy & Hy & ->); [|simpl; tauto].
  cbn in Hf. injection Hf as <-. cbn in Hv |- *.
  split; [|split; [exact Hv|reflexivity]].
  exists z, w5, YYYY, off.
  split; [|split; [split; assumption|split; [assumption|split;
                                              [assumption|reflexivity]]]].
  exists wd, w1, mon, w2, dd, w3, HH, MM, SS, w4. cbn.
  replace (i + 1 - 1) with i by lia.
  repeat (split; [assumption|]). assumption.
Qed.

(** C6, as the program has it.  In its default mode the date parser keeps
    the first four tokens and the last one of the string split at its
    spaces and reads them with the layout [%a %b %d %H:%M:%S %Y]; every
    token between the time and the year, the time zone among them, is
    dropped, so the result does not depend on them.  A result of the default
    mode is a naive, valid timestamp, and the kept tokens are written in the
    layout with the fields of that timestamp; a result of the strict mode
    is a valid timestamp with the offset written in the string, and the
    whole string is written in the layout with a time zone.  Hence a string
    whose kept tokens (default mode), or which itself (strict mode), is not
    written in the layout for any valid timestamp fails, and every failure
    is a parse error ([ValueError]). *)
Theorem parse_twitter_date_modes
  (weekday month_ day_ time_ year_ : string) (dropped : list string) :
  Forall (fun t => token t = true)
         ([weekday; month_; day_; time_] ++ dropped ++ [year_]) ->
  parse_twitter_date
    (JStr (PyStr.join ([weekday; month_; day_; time_] ++ dropped ++ [year_])))
    true
  = Strptime.strptime (PyStr.join [weekday; month_; day_; time_; year_])
                      twitter_format
  /\ (forall s,
         parse_twitter_date (JStr s) true
         = Strptime.strptime
             (PyStr.join (firstn 4 (PyStr.split s)
                          ++ [last (PyStr.split s) EmptyString]))
             twitter_format)
  /\ (forall s d, parse_twitter_date (JStr s) true = Ok d -> tzinfo d = None)
  /\ (forall s,
         parse_twitter_date (JStr s) false
         = Strptime.strptime s twitter_format_tz)
  /\ (forall s mode e,
         parse_twitter_date (JStr s) mode = Raise e -> e = ValueError)
  /\ (forall s d,
         parse_twitter_date (JStr s) true = Ok d ->
         layout_naive (PyStr.join (kept_parts (PyStr.split s))) d
         /\ valid_datetime d /\ microsecond d = 0)
  /\ (forall s d,
         parse_twitter_date (JStr s) false = Ok d ->
         layout_aware s d /\ valid_datetime d /\ microsecond d = 0)
  /\ (forall s,
         (forall d, layout_naive (PyStr.join (kept_parts (PyStr.split s))) d ->
                    ~ valid_datetime d) ->
         parse_twitter_date (JStr s) true = Raise ValueError)
  /\ (forall s,
         (forall d, layout_aware s d -> ~ valid_datetime d) ->
         parse_twitter_date (JStr s) false = Raise ValueError).
Proof.
  intros Hall.
  destruct (parse_twitter_date_kept _ _ _ _ _ _ Hall)
    as (H1 & H2 & H3 & H4 & H5).
  split; [exact H1|]. split; [exact H2|]. split; [exact H3|].
  split; [exact H4|]. split; [exact H5|].
  assert (H6 : forall s d,
             parse_twitter_date (JStr s) true = Ok d ->
             layout_naive (PyStr.join (kept_parts (PyStr.split s))) d
             /\ valid_datetime d /\ microsecond d = 0)
    by (intros s d H; exact (strptime_layout_naive _ _ H)).
  assert (H7 : forall s d,
             parse_twitter_date (JStr s) false = Ok d ->
             layout_aware s d /\ valid_datetime d /\ microsecond d = 0)
    by (intros s d H; exact (strptime_layout_aware _ _ H)).
  split; [exact H6|]. split; [exact H7|]. split.
  - intros s Hno.
    destruct (parse_twitter_date (JStr s) true) as [d|e] eqn:E.
    + destruct (H6 _ _ E) as (Hl & Hv & _). destruct (Hno _ Hl Hv).
    + now rewrite (H5 s true e E).
  - intros s Hno.
    destruct (parse_twitter_date (JStr s) false) as [d|e] eqn:E.
    + destruct (H7 _ _ E) as (Hl & Hv & _). destruct (Hno _ Hl Hv).
    + now rewrite (H5 s false e E).
Qed.

Lemma parse_twitter_date_modes_witness :
  parse_twitter_date (JStr "Mon Jan 01 10:00:00 +0000 2024") true
  = Strptime.strptime "Mon Jan 01 10:00:00 2024" twitter_format
  /\ layout_naive "Mon Jan 01 10:00:00 2024" Examples.foo_date.
Proof.
  assert (Hall : Forall (fun t => token t = true)
                        (["Mon"; "Jan"; "01"; "10:00:00"] ++ ["+0000"]
                         ++ ["2024"])%list)
    by (repeat constructor).
  destruct (parse_twitter_date_modes
              "Mon" "Jan" "01" "10:00:00" "2024" ["+0000"] Hall)
    as (H1 & _ & _ & _ & _ & H6 & _).
  split; [exact H1|].
  exact (proj1 (H6 "Mon Jan 01 10:00:00 +0000 2024" Examples.foo_date
                   eq_refl)).
Defined.

(** a day the month does not have is a parse error, in a text that has the
    shape of the layout *)
Example parse_twitter_date_invalid_day :
  parse_twitter_date (JStr "Mon Feb 30 10:00:00 +0000 2024") true
  = Raise ValueError.
Proof. reflexivity. Qed.
